(** * Lead-qualification relay: the chat turn of [main.py]

    A shallow embedding of the request pipeline of [main.py]
    ([is_real_contact], [call_ai], [analyze_situation], the alert logic of
    [chat_endpoint], [report_endpoint]) and the properties of its contact
    capture, alert latching and history truncation.

    Conventions of the embedding.
    - A Python [str] is the list of its code points ([pystr]).
    - A value that comes out of a JSON document ([pyval]) is [None], a
      string, or any other value; of the latter the program only ever
      observes the truth value and the [str()] rendering, which is what
      [POther] records.
    - Library functions whose tables are not part of the program are taken
      as parameters of the section: the decimal-digit class of the [re]
      module, [str.lower], [json.loads], and whether the text-generation
      client was created at start-up.
    - The replies of the text-generation service are inputs of each turn.
    - Sending a report is recorded as the call of [send_telegram] with its
      arguments; delivery is outside the program. *)

From Stdlib Require Import Ascii String.
From stdpp Require Import gmap list strings.

Local Open Scope bool_scope.

(** ** Strings *)

Definition pystr := list N.

(** The code points of an ASCII literal. *)
Fixpoint lit (s : string) : pystr :=
  match s with
  | EmptyString => []
  | String a s' => Ascii.N_of_ascii a :: lit s'
  end.

(** [w == s[:len(w)]] *)
Fixpoint starts_with (w s : pystr) : bool :=
  match w, s with
  | [], _ => true
  | _ :: _, [] => false
  | a :: w', b :: s' => (a =? b)%N && starts_with w' s'
  end.

(** [w in s] for two strings. *)
Fixpoint contains (w s : pystr) : bool :=
  starts_with w s ||
  match s with
  | [] => false
  | _ :: s' => contains w s'
  end.

(** The digits and the lowering of the ASCII range. *)
Definition ascii_digit (c : N) : bool := (48 <=? c)%N && (c <=? 57)%N.

Definition ascii_lower (s : pystr) : pystr :=
  map (fun c => if (65 <=? c)%N && (c <=? 90)%N then (c + 32)%N else c) s.


(** ** Values *)

Inductive pyval :=
| PNone
| PStr (s : pystr)
| POther (truth : bool) (text : pystr).

(** [bool(v)] *)
Definition truthy (v : pyval) : bool :=
  match v with
  | PNone => false
  | PStr [] => false
  | PStr (_ :: _) => true
  | POther b _ => b
  end.

(** [str(v)], also the rendering of [v] in an f-string. *)
Definition py_str (v : pyval) : pystr :=
  match v with
  | PNone => lit "None"
  | PStr s => s
  | POther _ t => t
  end.

(** [v in l] for a list [l] of string constants. *)
Definition in_strings (v : pyval) (l : list pystr) : bool :=
  match v with
  | PStr s => bool_decide (s ∈ l)
  | _ => false
  end.

(** [s[-n:]] for [n > 0]. *)
Definition last_n {A} (n : nat) (l : list A) : list A := drop (length l - n) l.

(** ** Data model *)

Inductive role := User | Assistant.

Record turn := Turn { role_of : role; content : option pystr }.

Record profile := Profile { name : pyval; contact : pyval; project_type : pyval }.

Record session := Session {
  history : list turn;
  profile_of : profile;
  alert_sent : bool;
  high_priority_alert_sent : bool
}.

Definition set_name (v : pyval) (p : profile) : profile :=
  Profile v (contact p) (project_type p).
Definition set_contact (v : pyval) (p : profile) : profile :=
  Profile (name p) v (project_type p).
Definition set_project_type (v : pyval) (p : profile) : profile :=
  Profile (name p) (contact p) v.

Definition with_history (h : list turn) (s : session) : session :=
  Session h (profile_of s) (alert_sent s) (high_priority_alert_sent s).
Definition with_profile (p : profile) (s : session) : session :=
  Session (history s) p (alert_sent s) (high_priority_alert_sent s).
Definition with_alert_sent (b : bool) (s : session) : session :=
  Session (history s) (profile_of s) b (high_priority_alert_sent s).
Definition with_high_priority (b : bool) (s : session) : session :=
  Session (history s) (profile_of s) (alert_sent s) b.

Definition HISTORY_LIMIT : nat := 30.

(** The session created for a new key (lines 237-242). *)
Definition new_session : session :=
  Session [] (Profile PNone PNone PNone) false false.

(** What [json.loads] makes of a text: it raises, or gives a value that is
    not a [dict], or gives a [dict]. *)
Inductive loaded :=
| Unparseable
| NotObject
| Object (d : gmap pystr pyval).

(** What [chat.completions.create(...)] does on one call. *)
Inductive completion :=
| ApiError
| Content (c : pystr).

(** ** Requests, replies and reports *)

(** The fields of a JSON body after [data.get] and its defaults; [None] is
    an absent key. The message and the session key are strings, as the
    interface types them; a body that holds another JSON value in their
    place is a request of [chat_endpoint_raw] below. *)
Record body := Body {
  message : option pystr;
  session_id : option pystr;
  stored_contact : pyval;
  language : pyval
}.

(** [request.json]: either it raises or gives a value without [get]
    (then line 231, or 299, raises), or it gives the fields of an object. *)
Inductive payload :=
| NotAnObject
| Fields (b : body).

(** The two calls of the text-generation service during a turn. *)
Record replies := Replies { analysis_reply : completion; generation_reply : completion }.

(** The arguments of one call of [send_telegram]. *)
Record report := Report {
  report_session : pystr;
  report_profile : profile;
  report_history : list turn;
  report_title : pystr
}.

(** The JSON object of a chat reply and its status; [save_contact = None]
    is an object without that key, [Some PNone] is [null]; [text = None] is
    [null]. *)
Record response := Response {
  text : option pystr;
  quick_replies : list pyval;
  save_contact : option pyval;
  status : nat
}.

(** What a chat turn that got past line 231 computed. *)
Record chat_log := ChatLog {
  log_session : pystr;
  log_message : pystr;
  log_stage : pyval;
  log_found : bool;
  log_agreement : bool;
  log_has_contact : bool;
  log_report : option report;
  log_reply : option pystr
}.

(** ** Constants of the alert logic *)

Definition GREETING : pyval := PStr (lit "GREETING").

Definition ALLOWED_ALERT_STAGES : list pystr := [lit "SALES_READY"; lit "URGENT"].

Definition SUPPRESSED_STAGES : list pystr :=
  [lit "GREETING"; lit "DISCOVERY"; lit "CONSULTING"].

Definition agreement_words : list pystr :=
  [lit "bale"; lit "yes"; lit "ok"; lit "please";
   [1576; 1604; 1607]%N; [1576; 1575; 1588; 1607]%N;
   [1581; 1578; 1605; 1575]%N; [1578; 1605; 1575; 1587]%N; lit "call"].

Definition NEW_CONTACT_TITLE : pystr := lit "HOT LEAD - NEW CONTACT".

Definition REPORTED_TITLE : pystr := [9888; 65039]%N ++ lit " USER REPORTED ERROR".

(** Lines 260-268: the decision and the latch. *)
Definition alert_logic (stage : pyval)
    (contact_found_now is_agreement has_contact : bool) (sess : session)
    : bool * session :=
  let '(should_alert, sess) :=
    if contact_found_now then (true, sess)
    else if (in_strings stage ALLOWED_ALERT_STAGES || is_agreement) && has_contact then
      if negb (high_priority_alert_sent sess)
      then (true, with_high_priority true sess)
      else (false, sess)
    else (false, sess) in
  let should_alert :=
    if in_strings stage SUPPRESSED_STAGES && negb contact_found_now && negb is_agreement
    then false
    else should_alert in
  (should_alert, sess).

(** Lines 272-273. *)
Definition alert_title (stage : pyval) (contact_found_now is_agreement : bool) : pystr :=
  let alert_title :=
    if is_agreement then lit "HOT LEAD - SALES READY"
    else lit "HOT LEAD - " ++ py_str stage in
  if contact_found_now then NEW_CONTACT_TITLE else alert_title.

(** ** The program *)

Section Program.

(** [re]'s class [\d] on [str] patterns, [str.lower], [json.loads] and
    [bool(data_store.groq_client)]. *)
Variable is_digit : N → bool.
Variable lower : pystr → pystr.
Variable json_loads : pystr → loaded.
Variable groq_client : bool.

(** [re.sub(r"\D", "", s)] *)
Fixpoint digits (s : pystr) : pystr :=
  match s with
  | [] => []
  | c :: s' => if is_digit c then c :: digits s' else digits s'
  end.

(** [is_real_contact], lines 75-81. *)
Definition is_real_contact (contact_str : pyval) : bool :=
  if negb (truthy contact_str) then false
  else
    let s := py_str contact_str in
    if contains (lit "@") s && contains (lit ".") s then true
    else if bool_decide (7 ≤ length (digits s)) then true
    else false.

(** [call_ai], lines 63-73: [None] without a client, the content of the
    completion, or the neutral default when the call raises. *)
Definition call_ai (json_mode : bool) (reply : completion) : option pystr :=
  if negb groq_client then None
  else
    match reply with
    | Content c => Some c
    | ApiError => Some (if json_mode then lit "{}" else lit "System Error.")
    end.

(** [data.get(key)] and [data.get(key, default)] *)
Definition get (data : gmap pystr pyval) (key : string) : pyval :=
  default PNone (data !! lit key).
Definition get_or (data : gmap pystr pyval) (key : string) (d : pyval) : pyval :=
  default d (data !! lit key).

(** Line 156: the check of the extracted contact against the message. *)
Definition is_in_text (extracted_contact : pyval) (user_message : pystr) : bool :=
  let clean_extracted := digits (py_str extracted_contact) in
  let clean_msg := digits user_message in
  if bool_decide (5 < length clean_extracted)
  then contains clean_extracted clean_msg
  else contains (py_str extracted_contact) user_message.

(** Lines 147-163, on the parsed reply [data]. *)
Definition analyze_data (sess : session) (user_message : pystr)
    (data : gmap pystr pyval) : pyval * bool * session :=
  let profile := profile_of sess in
  let profile :=
    if truthy (get data "name") then set_name (get data "name") profile
    else profile in
  let profile :=
    if truthy (get data "project_type")
    then set_project_type (get data "project_type") profile
    else profile in
  let extracted_contact := get data "contact" in
  let '(profile, contact_found_now) :=
    if is_real_contact extracted_contact then
      if is_in_text extracted_contact user_message
      then (set_contact extracted_contact profile, true)
      else (profile, false)
    else (profile, false) in
  (get_or data "stage" GREETING, contact_found_now, with_profile profile sess).

(** The body of the [try] of [analyze_situation], lines 142-163. [None]
    stands for an exception: [json.loads] raising, or [data.get] raising on
    a value that is not a [dict]. Both happen before the profile is touched. *)
Definition analyze_try (sess : session) (user_message : pystr)
    (reply : completion) : option (pyval * bool * session) :=
  match call_ai true reply with
  | None => Some (GREETING, false, sess)
  | Some [] => Some (GREETING, false, sess)
  | Some response =>
      match json_loads response with
      | Unparseable => None
      | NotObject => None
      | Object data => Some (analyze_data sess user_message data)
      end
  end.

(** [analyze_situation], lines 115-167, with its [except] branch. *)
Definition analyze_situation (sess : session) (user_message : pystr)
    (reply : completion) : pyval * bool * session :=
  match analyze_try sess user_message reply with
  | Some r => r
  | None => (GREETING, false, sess)
  end.

(** [generate_smart_response], lines 170-219. The strategy and the language
    only shape the prompt; the reply is what the service returns. *)
Definition generate_smart_response (reply : completion) : option pystr :=
  call_ai false reply.

(** Line 258. *)
Definition is_agreement (user_msg : pystr) : bool :=
  existsb (fun w => contains w (lower user_msg)) agreement_words.

(** Lines 245-248. *)
Definition seed_contact (stored_contact : pyval) (sess : session) : session :=
  if truthy stored_contact && negb (truthy (contact (profile_of sess))) then
    if is_real_contact stored_contact
    then with_profile (set_contact stored_contact (profile_of sess)) sess
    else sess
  else sess.

(** [chat_endpoint], lines 228-293. The session object is the one stored
    under the key, created when the key is new, and is written in place. *)
Definition chat_endpoint (SESSIONS : gmap pystr session) (data : payload)
    (r : replies) : gmap pystr session * response * option chat_log :=
  match data with
  | NotAnObject =>
      (SESSIONS, Response (Some (lit "System Error.")) [] None 200, None)
  | Fields b =>
      let user_msg := default [] (message b) in
      let sid := default (lit "guest") (session_id b) in
      let sess := default new_session (SESSIONS !! sid) in
      let sess := seed_contact (stored_contact b) sess in
      let '(stage, contact_found_now, sess) :=
        analyze_situation sess user_msg (analysis_reply r) in
      let has_contact := is_real_contact (contact (profile_of sess)) in
      let is_agreement := is_agreement user_msg in
      let '(should_alert, sess) :=
        alert_logic stage contact_found_now is_agreement has_contact sess in
      let '(sent, sess) :=
        if should_alert then
          let temp_history := history sess ++ [Turn User (Some user_msg)] in
          (Some (Report sid (profile_of sess) temp_history
                   (alert_title stage contact_found_now is_agreement)),
           with_alert_sent true sess)
        else (None, sess) in
      let bot_reply := generate_smart_response (generation_reply r) in
      let sess :=
        with_history
          (last_n HISTORY_LIMIT
             (history sess ++ [Turn User (Some user_msg); Turn Assistant bot_reply]))
          sess in
      (<[sid := sess]> SESSIONS,
       Response bot_reply [] (Some (contact (profile_of sess))) 200,
       Some (ChatLog sid user_msg stage contact_found_now is_agreement
               has_contact sent bot_reply))
  end.

(** [report_endpoint], lines 296-306: the call of [send_telegram] it makes,
    if any. The route reads [SESSIONS] and never writes it. *)
Definition report_endpoint (SESSIONS : gmap pystr session) (data : payload)
    : option report :=
  match data with
  | NotAnObject => None
  | Fields b =>
      let sid := default (lit "guest") (session_id b) in
      match SESSIONS !! sid with
      | Some sess => Some (Report sid (profile_of sess) (history sess) REPORTED_TITLE)
      | None => None
      end
  end.

(** ** Runs of the server *)

Inductive event :=
| ChatRequest (data : payload) (r : replies)
| ReportRequest (data : payload).

Definition step (SESSIONS : gmap pystr session) (e : event)
    : gmap pystr session * option chat_log :=
  match e with
  | ChatRequest data r =>
      let '(SESSIONS', _, log) := chat_endpoint SESSIONS data r in (SESSIONS', log)
  | ReportRequest _ => (SESSIONS, None)
  end.

(** The requests are served one after the other, from a given store; the
    result is the final store and the logs of the chat turns, oldest first. *)
Fixpoint run (SESSIONS : gmap pystr session) (es : list event)
    : gmap pystr session * list chat_log :=
  match es with
  | [] => (SESSIONS, [])
  | e :: es' =>
      let '(SESSIONS1, log) := step SESSIONS e in
      let '(SESSIONS2, logs) := run SESSIONS1 es' in
      (SESSIONS2, match log with Some l => l :: logs | None => logs end)
  end.

End Program.

(** ** Observations on stores and runs *)

(** The latch, the contact and the history of the session under a key; a
    key without a session has none. *)
Definition latch (SESSIONS : gmap pystr session) (sid : pystr) : bool :=
  match SESSIONS !! sid with
  | Some sess => high_priority_alert_sent sess
  | None => false
  end.

Definition contact_of (SESSIONS : gmap pystr session) (sid : pystr) : pyval :=
  match SESSIONS !! sid with
  | Some sess => contact (profile_of sess)
  | None => PNone
  end.

Definition history_of (SESSIONS : gmap pystr session) (sid : pystr) : list turn :=
  match SESSIONS !! sid with
  | Some sess => history sess
  | None => []
  end.

(** The message and the key of a body (lines 231-232), and the session a
    turn starts its classification with (lines 236-248). *)
Definition msg_of (b : body) : pystr := default [] (message b).

Definition sid_of (b : body) : pystr := default (lit "guest") (session_id b).

Definition turn_session (is_digit : N → bool) (SESSIONS : gmap pystr session)
    (b : body) : session :=
  seed_contact is_digit (stored_contact b) (default new_session (SESSIONS !! sid_of b)).

(** A turn alerted ([send_telegram] was called). *)
Definition alerted (l : chat_log) : bool :=
  match log_report l with
  | Some _ => true
  | None => false
  end.

(** A turn alerted without a contact confirmed on that turn: the only other
    assignment of [should_alert = True] is the one under the latch
    (line 264). *)
Definition high_priority_alert (l : chat_log) : bool :=
  alerted l && negb (log_found l).

(** The number of such alerts of one session in a run. *)
Fixpoint high_priority_alerts (sid : pystr) (logs : list chat_log) : nat :=
  match logs with
  | [] => 0
  | l :: logs' =>
      (if bool_decide (log_session l = sid) && high_priority_alert l then 1 else 0)
      + high_priority_alerts sid logs'
  end.

(** Every message and reply of one session, in order of arrival. *)
Fixpoint arrivals (sid : pystr) (logs : list chat_log) : list turn :=
  match logs with
  | [] => []
  | l :: logs' =>
      (if bool_decide (log_session l = sid)
       then [Turn User (Some (log_message l)); Turn Assistant (log_reply l)]
       else [])
      ++ arrivals sid logs'
  end.

(** [w] occurs in [s] as a contiguous run. *)
Definition substring (w s : pystr) : Prop := ∃ p q, s = p ++ w ++ q.

(** The object the reply of the classifier parses to, if the call gave a
    text and the text is an object. *)
Definition parsed_reply (json_loads : pystr → loaded) (groq_client : bool)
    (reply : completion) : option (gmap pystr pyval) :=
  match call_ai groq_client true reply with
  | Some (c :: cs) =>
      match json_loads (c :: cs) with
      | Object data => Some data
      | _ => None
      end
  | _ => None
  end.

(** The contact the classifier extracted: the [contact] entry of that
    object. *)
Definition classifier_contact (json_loads : pystr → loaded) (groq_client : bool)
    (reply : completion) : option pyval :=
  match parsed_reply json_loads groq_client reply with
  | Some data => Some (get data "contact")
  | None => None
  end.

(** The rule of appearance as the specification words it: with more than
    five digits, the digits of the extracted value equal the digits of the
    message; otherwise the value occurs verbatim. *)
Definition appears_as_specified (is_digit : N → bool)
    (extracted : pyval) (user_message : pystr) : Prop :=
  if bool_decide (5 < length (digits is_digit (py_str extracted)))
  then digits is_digit (py_str extracted) = digits is_digit user_message
  else substring (py_str extracted) user_message.

(** The rule of appearance with containment of the digits. *)
Definition appears (is_digit : N → bool)
    (extracted : pyval) (user_message : pystr) : Prop :=
  if bool_decide (5 < length (digits is_digit (py_str extracted)))
  then substring (digits is_digit (py_str extracted)) (digits is_digit user_message)
  else substring (py_str extracted) user_message.

(** The reply schema of the specification: a string [text], an empty
    [quick_replies], and a [save_contact] that is a string or [null]. *)
Definition matches_schema (resp : response) : Prop :=
  is_Some (text resp) ∧ quick_replies resp = [] ∧
  (save_contact resp = Some PNone ∨ ∃ s, save_contact resp = Some (PStr s)).

(** ** A reader of flat JSON objects

    [flat_loads] reads an object whose keys and values are strings without
    escapes, with optional blanks between the tokens, as [json.loads] does;
    any other text is refused. It instantiates [json_loads] in the concrete
    runs below. *)

Inductive reader :=
| AtStart
| AfterOpen (d : gmap pystr pyval)
| InKey (d : gmap pystr pyval) (k : pystr)
| AfterKey (d : gmap pystr pyval) (k : pystr)
| BeforeValue (d : gmap pystr pyval) (k : pystr)
| InValue (d : gmap pystr pyval) (k v : pystr)
| AfterValue (d : gmap pystr pyval)
| AfterComma (d : gmap pystr pyval)
| AtEnd (d : gmap pystr pyval)
| Refused.

Definition is_blank (c : N) : bool :=
  (c =? 32)%N || (c =? 9)%N || (c =? 10)%N || (c =? 13)%N.

(** Inside a string: the closing quote, an escape or a control character
    (both refused), or a character of the string. *)
Definition read_char (c : N) (close : pystr → reader) (more : pystr → reader)
    (acc : pystr) : reader :=
  if (c =? 34)%N then close acc
  else if (c =? 92)%N || (c <? 32)%N then Refused
  else more (acc ++ [c]).

Definition read (st : reader) (c : N) : reader :=
  match st with
  | AtStart =>
      if is_blank c then AtStart else if (c =? 123)%N then AfterOpen ∅ else Refused
  | AfterOpen d =>
      if is_blank c then AfterOpen d
      else if (c =? 34)%N then InKey d []
      else if (c =? 125)%N then AtEnd d
      else Refused
  | InKey d k => read_char c (AfterKey d) (InKey d) k
  | AfterKey d k =>
      if is_blank c then AfterKey d k
      else if (c =? 58)%N then BeforeValue d k
      else Refused
  | BeforeValue d k =>
      if is_blank c then BeforeValue d k
      else if (c =? 34)%N then InValue d k []
      else Refused
  | InValue d k v => read_char c (fun v => AfterValue (<[k := PStr v]> d)) (InValue d k) v
  | AfterValue d =>
      if is_blank c then AfterValue d
      else if (c =? 44)%N then AfterComma d
      else if (c =? 125)%N then AtEnd d
      else Refused
  | AfterComma d =>
      if is_blank c then AfterComma d
      else if (c =? 34)%N then InKey d []
      else Refused
  | AtEnd d => if is_blank c then AtEnd d else Refused
  | Refused => Refused
  end.

Definition flat_loads (s : pystr) : loaded :=
  match foldl read AtStart s with
  | AtEnd d => Object d
  | _ => Unparseable
  end.

(** A JSON string token and a flat object with the given entries. *)
Definition quoted (s : string) : pystr := [34%N] ++ lit s ++ [34%N].

Fixpoint entries (kvs : list (string * string)) : pystr :=
  match kvs with
  | [] => []
  | [(k, v)] => quoted k ++ lit ": " ++ quoted v
  | (k, v) :: kvs' => quoted k ++ lit ": " ++ quoted v ++ lit ", " ++ entries kvs'
  end.

Definition object_text (kvs : list (string * string)) : pystr :=
  lit "{" ++ entries kvs ++ lit "}".

(** ** The notification

    [send_telegram], lines 83-112. The keys [name], [contact] and
    [project_type] are present in every profile (line 239), so the defaults
    of [profile.get] are never used and a value that is [None] prints as
    [None]. *)

Definition nl : pystr := [10%N].

(** The text of a turn's content in an f-string. *)
Definition content_text (c : option pystr) : pystr :=
  match c with
  | Some s => s
  | None => lit "None"
  end.

(** Line 92. *)
Definition icon (r : role) : pystr :=
  match r with
  | User => [128100%N]
  | Assistant => [129302%N]
  end.

(** Lines 90-93. *)
Fixpoint chat_log_text (history : list turn) : pystr :=
  match history with
  | [] => []
  | msg :: rest =>
      (icon (role_of msg) ++ lit " " ++ content_text (content msg) ++ nl)
      ++ chat_log_text rest
  end.

(** Lines 95-103. *)
Definition report_text (p : profile) (history : list turn) (title : pystr) : pystr :=
  ([128680%N] ++ lit " **" ++ title ++ lit "**" ++ nl)
  ++ ([128100%N] ++ lit " Name: " ++ py_str (name p) ++ nl)
  ++ ([128222%N] ++ lit " Contact: `" ++ py_str (contact p) ++ lit "`" ++ nl)
  ++ ([128188%N] ++ lit " Project: " ++ py_str (project_type p) ++ nl)
  ++ (lit "----------------------------" ++ nl)
  ++ ([128220%N] ++ lit " **TRANSCRIPT:**" ++ nl ++ nl)
  ++ chat_log_text history.

Definition REPORT_LIMIT : nat := 4000.

(** Line 105. *)
Definition clip (report : pystr) : pystr :=
  if bool_decide (REPORT_LIMIT < length report)
  then take REPORT_LIMIT report ++ lit "..."
  else report.

(** The request posted to the messaging service. *)
Record telegram_post := TelegramPost {
  post_url : pystr;
  post_chat_id : pystr;
  post_text : pystr
}.

(** [send_telegram]: the post it makes, given the two environment variables
    ([None] when unset); nothing is posted when one is unset or empty. *)
Definition send_telegram (token chat_id : option pystr) (rep : report)
    : option telegram_post :=
  match token, chat_id with
  | Some (t0 :: t), Some (c0 :: c) =>
      Some (TelegramPost
              (lit "https://api.telegram.org/bot" ++ (t0 :: t) ++ lit "/sendMessage")
              (c0 :: c)
              (clip (report_text (report_profile rep) (report_history rep)
                       (report_title rep))))
  | _, _ => None
  end.

(** ** The reply directive

    Lines 171-201 of [generate_smart_response] and the messages of its call
    (lines 215-217). *)

(** [stage == s] for a string constant [s]. *)
Definition is_stage (stage : pyval) (s : string) : bool :=
  match stage with
  | PStr t => bool_decide (t = lit s)
  | _ => false
  end.

(** Lines 173-176. *)
Definition lang_instr (language : pyval) : pystr :=
  if is_stage language "fa"
  then lit "Answer in Persian (Farsi). Tone: Professional & Polite."
  else lit "Answer in English. Tone: Professional.".

(** Lines 178-201. *)
Definition strategy (contact_found_now : bool) (p : profile) (stage : pyval) : pystr :=
  if contact_found_now then
    lit "CLOSING: Thank them. Confirm an expert will call."
  else if truthy (contact p) then
    if is_stage stage "URGENT" then
      lit "VIP URGENT: 'I have your number. Team alerted.'"
    else if is_stage stage "SALES_READY" then
      lit "VIP SALES: 'I have your info. Team will call you to finalize.'"
    else
      lit "VIP CONSULTANT: Answer questions helpfuly. Do NOT ask for contact."
  else
    if is_stage stage "URGENT" then
      lit "URGENT: Ask for phone number immediately."
    else if is_stage stage "SALES_READY" then
      lit "SALES: 'To proceed/give price, I need your contact info.'"
    else if is_stage stage "DISCOVERY" then
      lit "DISCOVERY: Acknowledge project. Ask 1 key question."
    else if is_stage stage "CONSULTING" then
      lit "ADVISOR: Give advice. Ask follow up."
    else
      lit "GREETING: Welcome them.".

(** The two directives that ask the visitor for a contact. *)
Definition ASKING_DIRECTIVES : list pystr :=
  [lit "URGENT: Ask for phone number immediately.";
   lit "SALES: 'To proceed/give price, I need your contact info.'"].

Record prompt_message := PromptMessage { msg_role : pystr; msg_content : option pystr }.

Definition role_name (r : role) : pystr :=
  match r with
  | User => lit "user"
  | Assistant => lit "assistant"
  end.

(** Lines 215-217, for a given text of the system prompt. *)
Definition generation_messages (system_prompt : pystr) (sess : session)
    (user_message : pystr) : list prompt_message :=
  [PromptMessage (lit "system") (Some system_prompt)]
  ++ map (fun t => PromptMessage (role_name (role_of t)) (content t)) (history sess)
  ++ [PromptMessage (lit "user") (Some user_message)].

(** Line 117: the turns shown to the classifier. *)
Definition analysis_context (sess : session) : list turn := last_n 6 (history sess).

(** The session as it is when line 279 calls [generate_smart_response]. *)
Definition generation_session (is_digit : N → bool) (lower : pystr → pystr)
    (json_loads : pystr → loaded) (groq_client : bool)
    (SESSIONS : gmap pystr session) (b : body) (r : replies) : session :=
  let a := analyze_situation is_digit json_loads groq_client
             (turn_session is_digit SESSIONS b) (msg_of b) (analysis_reply r) in
  let d := alert_logic a.1.1 a.1.2 (is_agreement lower (msg_of b))
             (is_real_contact is_digit (contact (profile_of a.2))) a.2 in
  if d.1 then with_alert_sent true d.2 else d.2.

(** The directive of a turn: [strategy] on the arguments of line 279. *)
Definition turn_directive (is_digit : N → bool) (lower : pystr → pystr)
    (json_loads : pystr → loaded) (groq_client : bool)
    (SESSIONS : gmap pystr session) (b : body) (r : replies) : pystr :=
  let a := analyze_situation is_digit json_loads groq_client
             (turn_session is_digit SESSIONS b) (msg_of b) (analysis_reply r) in
  strategy a.1.2
    (profile_of (generation_session is_digit lower json_loads groq_client SESSIONS b r))
    a.1.1.

(** ** The decision without its last rule *)

(** Lines 260-265 alone. *)
Definition alert_rules (stage : pyval)
    (contact_found_now is_agreement has_contact : bool) (sess : session)
    : bool * session :=
  if contact_found_now then (true, sess)
  else if (in_strings stage ALLOWED_ALERT_STAGES || is_agreement) && has_contact then
    if negb (high_priority_alert_sent sess)
    then (true, with_high_priority true sess)
    else (false, sess)
  else (false, sess).

(** ** The report route's answer *)

(** The three answers of [report_endpoint]: [success], [error] for an
    unknown session, [error] with the text of an exception. *)
Inductive report_answer := ReportSent | SessionNotFound | ReportFailed.

Definition report_answer_of (SESSIONS : gmap pystr session) (data : payload)
    : report_answer :=
  match data with
  | NotAnObject => ReportFailed
  | Fields b =>
      match SESSIONS !! sid_of b with
      | Some _ => ReportSent
      | None => SessionNotFound
      end
  end.

(** ** Start-up

    [initialize_system], lines 30-55. *)

(** [s.replace(old, new)] for a non-empty [old]: the occurrences of [old]
    are replaced from left to right, without overlap. [skip] counts the
    characters of an occurrence still to be passed over. *)
Fixpoint replace_from (old new : pystr) (skip : nat) (s : pystr) : pystr :=
  match s with
  | [] => []
  | c :: s' =>
      match skip with
      | S k => replace_from old new k s'
      | O =>
          if starts_with old s
          then new ++ replace_from old new (length old - 1) s'
          else c :: replace_from old new 0 s'
      end
  end.

Definition replace (old new s : pystr) : pystr := replace_from old new 0 s.

(** [sep.join(parts)] *)
Fixpoint join (sep : pystr) (parts : list pystr) : pystr :=
  match parts with
  | [] => []
  | [p] => p
  | p :: rest => p ++ sep ++ join sep rest
  end.

Definition CHABOK : pystr := [1670; 1575; 1576; 1705]%N.
Definition TAHAVVOL : pystr := [1578; 1581; 1608; 1604]%N.

(** Lines 44-45: the part of the knowledge base made of [about.txt]. *)
Definition company_profile (about : pystr) : pystr :=
  lit "[COMPANY PROFILE]" ++ nl
  ++ replace (lit "Transformation") TAHAVVOL (replace (lit "Agile") CHABOK about).

Record DataStore := mkDataStore { knowledge_base : pystr; groq_client : bool }.

(** What start-up finds: the API key of the environment, the text of
    [about.txt] if the file exists, and for [services.csv], if it exists,
    the rendering of its table or [None] when reading it raises. *)
Record startup := Startup {
  api_key : option pystr;
  about_txt : option pystr;
  services_csv : option (option pystr)
}.

Definition initialize_system (data_store : DataStore) (e : startup) : DataStore :=
  if groq_client data_store then data_store
  else
    let client :=
      match api_key e with
      | Some (_ :: _) => true
      | _ => false
      end in
    let kb_parts :=
      match about_txt e with
      | Some content => [company_profile content]
      | None => []
      end
      ++ match services_csv e with
         | Some (Some table) => [lit "[SERVICES]" ++ nl ++ table]
         | _ => []
         end in
    mkDataStore (join (nl ++ nl) kb_parts) client.

(** ** More observations on stores *)

Definition alert_sent_of (SESSIONS : gmap pystr session) (sid : pystr) : bool :=
  match SESSIONS !! sid with
  | Some sess => alert_sent sess
  | None => false
  end.

Definition name_of (SESSIONS : gmap pystr session) (sid : pystr) : pyval :=
  match SESSIONS !! sid with
  | Some sess => name (profile_of sess)
  | None => PNone
  end.

Definition project_type_of (SESSIONS : gmap pystr session) (sid : pystr) : pyval :=
  match SESSIONS !! sid with
  | Some sess => project_type (profile_of sess)
  | None => PNone
  end.

(** A history made of pairs: a message of the user, then a reply. *)
Fixpoint paired (h : list turn) : bool :=
  match h with
  | [] => true
  | Turn User _ :: Turn Assistant _ :: rest => paired rest
  | _ => false
  end.

(** Some turn of the session in the logs satisfies [P]. *)
Definition some_turn (P : chat_log → bool) (sid : pystr) (logs : list chat_log) : bool :=
  existsb (fun l => bool_decide (log_session l = sid) && P l) logs.

(** ** Requests of any JSON shape

    [body] types the message and the session key as the interface does.
    [request.json] may hold any JSON value in their place, and the route
    then runs part of the way before line 236 or line 258 raises and the
    [except] branch of lines 291-293 answers. [chat_endpoint_raw] is the
    route on such requests; on the requests of [body] it is
    [chat_endpoint]. *)

(** A message that is not a string is observed in three ways: [str()] of
    it (line 155), [x in] it for a string [x] (line 156; [None] when that
    raises [TypeError], as for [null] and numbers), and [.lower()], which
    it does not have (line 258). *)
Inductive message_value :=
| MText (s : pystr)
| MOther (text : pystr) (member : pystr → option bool).

(** A key of [SESSIONS]: a string, or another hashable value ([null], a
    boolean, a number), named by a code that identifies it up to Python's
    equality of keys. *)
Inductive key :=
| KText (s : pystr)
| KOther (code : positive).

(** The value under [session_id]: a key, or a value that cannot be hashed
    (an array, an object). *)
Inductive key_value :=
| Hashable (k : key)
| Unhashable.

#[global] Instance key_eq_dec : EqDecision key.
Proof. solve_decision. Defined.

#[global] Instance key_countable : Countable key.
Proof.
  refine (inj_countable'
            (fun k => match k with KText s => inl s | KOther c => inr c end)
            (fun x => match x with inl s => KText s | inr c => KOther c end) _).
  by intros [].
Defined.

(** The fields of a JSON object, [None] for an absent key. *)
Record raw_body := RawBody {
  raw_message : option message_value;
  raw_session_id : option key_value;
  raw_stored_contact : pyval;
  raw_language : pyval
}.

Inductive raw_payload :=
| RawNotAnObject
| RawFields (b : raw_body).

(** Line 293. *)
Definition error_response : response :=
  Response (Some (lit "System Error.")) [] None 200.

Section RawProgram.

Variable is_digit : N → bool.
Variable lower : pystr → pystr.
Variable json_loads : pystr → loaded.
Variable groq_client : bool.

(** Lines 245-289 on the session object of the request, for a message that
    is a string: the session as the turn leaves it, and the reply. *)
Definition completed_turn (sess : session) (stored_contact : pyval)
    (user_msg : pystr) (r : replies) : session * response :=
  let sess := seed_contact is_digit stored_contact sess in
  let '(stage, contact_found_now, sess) :=
    analyze_situation is_digit json_loads groq_client sess user_msg (analysis_reply r) in
  let has_contact := is_real_contact is_digit (contact (profile_of sess)) in
  let is_agreement := is_agreement lower user_msg in
  let '(should_alert, sess) :=
    alert_logic stage contact_found_now is_agreement has_contact sess in
  let sess := if should_alert then with_alert_sent true sess else sess in
  let bot_reply := generate_smart_response groq_client (generation_reply r) in
  let sess :=
    with_history
      (last_n HISTORY_LIMIT
         (history sess ++ [Turn User (Some user_msg); Turn Assistant bot_reply]))
      sess in
  (sess, Response bot_reply [] (Some (contact (profile_of sess))) 200).

(** Line 156 for a message that is not a string; [None] is the
    [TypeError] of [x in user_message]. *)
Definition is_in_text_other (extracted_contact : pyval) (text : pystr)
    (member : pystr → option bool) : option bool :=
  let clean_extracted := digits is_digit (py_str extracted_contact) in
  let clean_msg := digits is_digit text in
  if bool_decide (5 < length clean_extracted)
  then Some (contains clean_extracted clean_msg)
  else member (py_str extracted_contact).

(** [analyze_situation] on a message that is not a string: the session it
    leaves. The profile is written in place, so the name and the project
    type set at lines 147-148 stay when line 156 raises. *)
Definition analyze_situation_other (sess : session) (text : pystr)
    (member : pystr → option bool) (reply : completion) : session :=
  match call_ai groq_client true reply with
  | None => sess
  | Some [] => sess
  | Some response =>
      match json_loads response with
      | Unparseable => sess
      | NotObject => sess
      | Object data =>
          let profile := profile_of sess in
          let profile :=
            if truthy (get data "name") then set_name (get data "name") profile
            else profile in
          let profile :=
            if truthy (get data "project_type")
            then set_project_type (get data "project_type") profile
            else profile in
          let extracted_contact := get data "contact" in
          if is_real_contact is_digit extracted_contact then
            match is_in_text_other extracted_contact text member with
            | Some true => with_profile (set_contact extracted_contact profile) sess
            | Some false => with_profile profile sess
            | None => with_profile profile sess
            end
          else with_profile profile sess
      end
  end.

(** Lines 245-258 on the session object of the request, for a message that
    is not a string: the session is seeded and classified, then line 258
    raises. *)
Definition aborted_turn (sess : session) (stored_contact : pyval)
    (text : pystr) (member : pystr → option bool) (r : replies) : session :=
  analyze_situation_other (seed_contact is_digit stored_contact sess) text member
    (analysis_reply r).

(** [chat_endpoint], lines 228-293, on any request: the store it leaves and
    the reply. *)
Definition chat_endpoint_raw (SESSIONS : gmap key session) (data : raw_payload)
    (r : replies) : gmap key session * response :=
  match data with
  | RawNotAnObject => (SESSIONS, error_response)
  | RawFields b =>
      let user_msg := default (MText []) (raw_message b) in
      match default (Hashable (KText (lit "guest"))) (raw_session_id b) with
      | Unhashable => (SESSIONS, error_response)
      | Hashable session_id =>
          let sess := default new_session (SESSIONS !! session_id) in
          match user_msg with
          | MText user_msg =>
              let '(sess, resp) :=
                completed_turn sess (raw_stored_contact b) user_msg r in
              (<[session_id := sess]> SESSIONS, resp)
          | MOther text member =>
              (<[session_id := aborted_turn sess (raw_stored_contact b) text member r]>
                 SESSIONS,
               error_response)
          end
      end
  end.

End RawProgram.

(** The requests on which the route raises, so that lines 291-293 answer:
    the body is not an object, the session key cannot be hashed, or the
    message is not a string. *)
Definition request_fails (data : raw_payload) : bool :=
  match data with
  | RawNotAnObject => true
  | RawFields b =>
      match raw_session_id b, raw_message b with
      | Some Unhashable, _ => true
      | _, Some (MOther _ _) => true
      | _, _ => false
      end
  end.

(** The key of a request whose key can be hashed (line 232). *)
Definition request_key (b : raw_body) : option key :=
  match default (Hashable (KText (lit "guest"))) (raw_session_id b) with
  | Hashable k => Some k
  | Unhashable => None
  end.

Definition contact_at (SESSIONS : gmap key session) (k : key) : pyval :=
  match SESSIONS !! k with
  | Some sess => contact (profile_of sess)
  | None => PNone
  end.

(** A request of [body] as a request of any shape. *)
Definition raw_of_body (b : body) : raw_body :=
  RawBody (MText <$> message b) ((fun s => Hashable (KText s)) <$> session_id b)
    (stored_contact b) (language b).

Definition raw_of (data : payload) : raw_payload :=
  match data with
  | NotAnObject => RawNotAnObject
  | Fields b => RawFields (raw_of_body b)
  end.

(** ** Sample inputs of the concrete runs

    The runs below take the ASCII digits and the ASCII lowering for the
    library functions and [flat_loads] for [json.loads], with the client in
    place; their inputs are ASCII texts, on which these agree with the
    library. *)

Definition demo_analyze := analyze_situation ascii_digit flat_loads true.
Definition demo_chat := chat_endpoint ascii_digit ascii_lower flat_loads true.
Definition demo_run := run ascii_digit ascii_lower flat_loads true.

Definition sample_phone : pyval := PStr (lit "555-1234").
Definition sample_mail : pyval := PStr (lit "a@b.com").
Definition visitor : pystr := lit "visitor-1".

(** Replies of the classifier: a stage alone, or a stage and a contact. *)
Definition reply_stage (stage : string) : completion :=
  Content (object_text [("stage", stage)]).

Definition reply_with_phone : completion :=
  Content (object_text [("stage", "SALES_READY"); ("contact", "555-1234")]).

Definition reply_with_mail : completion :=
  Content (object_text [("stage", "SALES_READY"); ("contact", "a@b.com")]).

Definition message_with_phone : pystr := lit "call me at 555-1234".

(** The same number followed by one more digit. *)
Definition message_with_longer_number : pystr := lit "call me at 555-1234 after 5".

(** A request of [visitor], with or without a contact kept by the caller. *)
Definition says (msg : string) : payload :=
  Fields (Body (Some (lit msg)) (Some visitor) PNone (PStr (lit "en"))).

Definition says_with_cookie (msg : string) : payload :=
  Fields (Body (Some (lit msg)) (Some visitor) (PStr (lit "555-123-4567")) (PStr (lit "en"))).

Definition answered (analysis : completion) : replies :=
  Replies analysis (Content (lit "Thank you.")).

(** Two turns at stage [SALES_READY] with a stored contact. *)
Definition two_sales_ready_turns : list event :=
  [ChatRequest (says_with_cookie "what is the price") (answered (reply_stage "SALES_READY"));
   ChatRequest (says "start now") (answered (reply_stage "SALES_READY"))].

(** Two turns that each give a contact. *)
Definition two_contacts : list event :=
  [ChatRequest (says "call me at 555-1234") (answered reply_with_phone);
   ChatRequest (says "or write to a@b.com") (answered reply_with_mail)].

(** Sixteen turns of one session. *)
Definition sixteen_turns : list event :=
  replicate 16 (ChatRequest (says "hello") (answered (reply_stage "GREETING"))).

(** Further sample inputs. *)

Definition body_with_cookie (msg : string) : body :=
  Body (Some (lit msg)) (Some visitor) (PStr (lit "555-123-4567")) (PStr (lit "en")).

Definition other_visitor_says (msg : string) : payload :=
  Fields (Body (Some (lit msg)) (Some (lit "visitor-2")) PNone (PStr (lit "en"))).

Definition report_request : body := Body None (Some visitor) PNone PNone.

Definition sample_token : option pystr := Some (lit "123:token").
Definition sample_chat_id : option pystr := Some (lit "42").

(** A report whose only message has 5000 characters. *)
Definition long_report : report :=
  Report visitor (Profile PNone sample_phone PNone)
    [Turn User (Some (replicate 5000 97%N))] NEW_CONTACT_TITLE.

(** A start-up with a key and an [about.txt], without [services.csv]. *)
Definition sample_startup : startup :=
  Startup (Some (lit "key")) (Some (lit "We do Agile Transformation.")) None.

Definition fresh_store : DataStore := mkDataStore [] false.

(** Requests whose message is not a string: [null], and the number
    5551234567. *)
Definition null_message : message_value := MOther (lit "None") (fun _ => None).
Definition number_message : message_value := MOther (lit "5551234567") (fun _ => None).

Definition raw_says (m : message_value) : raw_payload :=
  RawFields (RawBody (Some m) (Some (Hashable (KText visitor))) PNone (PStr (lit "en"))).

Definition demo_chat_raw := chat_endpoint_raw ascii_digit ascii_lower flat_loads true.

(** * Properties *)

(** ** Strings and lists *)

Lemma starts_with_spec w s : starts_with w s = true ↔ ∃ q, s = w ++ q.
Proof.
  revert s. induction w as [|a w IH]; intros s; simpl.
  - split; [eauto | done].
  - destruct s as [|b s]; simpl.
    + split; [done | intros [q Hq]; discriminate].
    + rewrite andb_true_iff, N.eqb_eq, IH. split.
      * intros [-> [q ->]]. eauto.
      * intros [q Hq]. injection Hq as -> ->. eauto.
Qed.

Lemma contains_spec w s : contains w s = true ↔ substring w s.
Proof.
  unfold substring. induction s as [|b s IH]; simpl.
  - rewrite orb_false_r, starts_with_spec. split.
    + intros [q ->]. exists [], q. done.
    + intros [p [q Hpq]]. destruct p; [eauto | discriminate].
  - rewrite orb_true_iff, starts_with_spec, IH. split.
    + intros [[q ->] | [p [q ->]]]; [exists [], q | exists (b :: p), q]; done.
    + intros [[|c p] [q Hpq]]; simpl in Hpq.
      * left. eauto.
      * right. injection Hpq as -> ->. eauto.
  Qed.

Lemma last_n_length {A} n (l : list A) : length (last_n n l) ≤ n.
Proof. unfold last_n. rewrite length_drop. lia. Qed.

Lemma last_n_short {A} n (l : list A) : length l ≤ n → last_n n l = l.
Proof. intros H. unfold last_n. by replace (length l - n) with 0 by lia. Qed.

Lemma last_n_app {A} n (l l' : list A) :
  last_n n (last_n n l ++ l') = last_n n (l ++ l').
Proof.
  unfold last_n.
  rewrite <- (drop_app_le l l' (length l - n)) by lia.
  rewrite drop_drop. f_equal.
  rewrite length_drop, !length_app. lia.
Qed.



Section Properties.

Context (is_digit : N → bool) (lower : pystr → pystr)
        (json_loads : pystr → loaded) (groq_client : bool).

(** What is assumed of the library: the digit class contains, of the ASCII
    range, exactly [0-9]; the text [{}] parses to the empty object. *)
Hypothesis is_digit_ascii : ∀ c, (c < 128)%N → is_digit c = ascii_digit c.
Hypothesis loads_empty_object : json_loads (lit "{}") = Object ∅.


(** ** The contact validator *)

Lemma is_real_contact_unfold v :
  is_real_contact is_digit v =
    truthy v &&
    ((contains (lit "@") (py_str v) && contains (lit ".") (py_str v))
     || bool_decide (7 ≤ length (digits is_digit (py_str v)))).
Proof.
  unfold is_real_contact. destruct (truthy v); [|reflexivity].
  cbv zeta. cbn [negb andb].
  destruct (contains (lit "@") (py_str v) && contains (lit ".") (py_str v)); [reflexivity|].
  by destruct (bool_decide _).
Qed.

Lemma is_real_contact_truthy v : is_real_contact is_digit v = true → truthy v = true.
Proof. rewrite is_real_contact_unfold, andb_true_iff. tauto. Qed.


(** ** The stage classifier *)

Lemma is_in_text_spec e msg :
  is_in_text is_digit e msg = true ↔ appears is_digit e msg.
Proof.
  unfold is_in_text, appears.
  destruct (bool_decide (5 < length (digits is_digit (py_str e)))); apply contains_spec.
Qed.

Lemma analyze_data_found sess msg d :
  (analyze_data is_digit sess msg d).1.2 =
    is_real_contact is_digit (get d "contact") && is_in_text is_digit (get d "contact") msg.
Proof.
  unfold analyze_data.
  destruct (is_real_contact is_digit (get d "contact")); [|reflexivity].
  by destruct (is_in_text is_digit (get d "contact") msg).
Qed.

Lemma analyze_data_contact sess msg d :
  contact (profile_of (analyze_data is_digit sess msg d).2) =
    if (analyze_data is_digit sess msg d).1.2 then get d "contact"
    else contact (profile_of sess).
Proof.
  unfold analyze_data.
  destruct (is_real_contact is_digit (get d "contact"));
    [destruct (is_in_text is_digit (get d "contact") msg)|];
    simpl; repeat case_match; reflexivity.
Qed.

Lemma analyze_data_rest sess msg d :
  history (analyze_data is_digit sess msg d).2 = history sess
  ∧ alert_sent (analyze_data is_digit sess msg d).2 = alert_sent sess
  ∧ high_priority_alert_sent (analyze_data is_digit sess msg d).2
    = high_priority_alert_sent sess.
Proof.
  unfold analyze_data.
  destruct (is_real_contact is_digit (get d "contact"));
    [destruct (is_in_text is_digit (get d "contact") msg)|]; done.
Qed.

Lemma analyze_data_empty sess msg :
  analyze_data is_digit sess msg ∅ = (GREETING, false, sess).
Proof.
  unfold analyze_data, get, get_or. rewrite !lookup_empty. simpl.
  by destruct sess.
Qed.

(** Either the reply parses to an object and lines 147-163 run on it, or the
    classification falls back to its default and leaves the session alone. *)
Lemma analyze_situation_cases sess msg reply :
  (∃ d, parsed_reply json_loads groq_client reply = Some d
        ∧ analyze_situation is_digit json_loads groq_client sess msg reply
          = analyze_data is_digit sess msg d)
  ∨ (parsed_reply json_loads groq_client reply = None
     ∧ analyze_situation is_digit json_loads groq_client sess msg reply
       = (GREETING, false, sess)).
Proof.
  unfold analyze_situation, analyze_try, parsed_reply.
  destruct (call_ai groq_client true reply) as [[|c cs]|]; [by right | | by right].
  destruct (json_loads (c :: cs)); [by right | by right | left; eauto].
Qed.

Lemma analyze_situation_rest sess msg reply :
  history (analyze_situation is_digit json_loads groq_client sess msg reply).2
    = history sess
  ∧ alert_sent (analyze_situation is_digit json_loads groq_client sess msg reply).2
    = alert_sent sess
  ∧ high_priority_alert_sent
      (analyze_situation is_digit json_loads groq_client sess msg reply).2
    = high_priority_alert_sent sess.
Proof.
  destruct (analyze_situation_cases sess msg reply) as [(d & _ & ->) | [_ ->]];
    [apply analyze_data_rest | done].
Qed.

(** When a contact is confirmed, and what the profile holds afterwards. *)
Lemma analyze_situation_confirmation sess msg reply stage found sess' :
  analyze_situation is_digit json_loads groq_client sess msg reply = (stage, found, sess') →
  (found = true ↔
     ∃ e, classifier_contact json_loads groq_client reply = Some e
          ∧ is_real_contact is_digit e = true ∧ appears is_digit e msg)
  ∧ (found = true →
       classifier_contact json_loads groq_client reply = Some (contact (profile_of sess')))
  ∧ (found = false → contact (profile_of sess') = contact (profile_of sess)).
Proof.
  intros Hrun. unfold classifier_contact.
  destruct (analyze_situation_cases sess msg reply) as [(d & -> & Heq) | [-> Heq]];
    rewrite Hrun in Heq.
  - pose proof (analyze_data_found sess msg d) as Hfound.
    pose proof (analyze_data_contact sess msg d) as Hcontact.
    rewrite <- Heq in Hfound, Hcontact. simpl in Hfound, Hcontact.
    split_and!.
    + rewrite Hfound, andb_true_iff, is_in_text_spec. split.
      * intros [? ?]. eauto.
      * intros (e & [= <-] & ? & ?). done.
    + intros ->. by rewrite Hcontact.
    + intros ->. by rewrite Hcontact.
  - injection Heq as -> -> ->. split_and!; [|done|done].
    split; [done | intros (e & ? & _); discriminate].
Qed.

(** C1, with containment in place of equality of the digits. The contact
    counts as confirmed on a turn exactly when the classifier extracted a
    value that passes [is_real_contact] and appears in the raw message:
    with more than five digits in the value, its digits form a contiguous
    run of the digits of the message; otherwise the value itself occurs in
    the message. The contact of the profile becomes the extracted value
    when it is confirmed and keeps its value otherwise. *)
Theorem contact_confirmation sess msg reply :
  let res := analyze_situation is_digit json_loads groq_client sess msg reply in
  (res.1.2 = true ↔
     ∃ e, classifier_contact json_loads groq_client reply = Some e
          ∧ is_real_contact is_digit e = true ∧ appears is_digit e msg)
  ∧ (res.1.2 = true →
       classifier_contact json_loads groq_client reply
       = Some (contact (profile_of res.2)))
  ∧ (res.1.2 = false → contact (profile_of res.2) = contact (profile_of sess)).
Proof.
  cbv zeta.
  destruct (analyze_situation is_digit json_loads groq_client sess msg reply)
    as [[stage found] sess'] eqn:Hrun.
  exact (analyze_situation_confirmation _ _ _ _ _ _ Hrun).
Qed.

(** C7. When the call of the classifier fails (no client, or the call
    raises) or its output does not parse to an object, [analyze_situation]
    returns the stage [GREETING] with no contact confirmed, and the session,
    its profile included, is the one it was given. *)
Theorem classifier_failure sess msg reply :
  groq_client = false ∨ reply = ApiError
  ∨ (∃ c, reply = Content c ∧ (json_loads c = Unparseable ∨ json_loads c = NotObject)) →
  analyze_situation is_digit json_loads groq_client sess msg reply = (GREETING, false, sess).
Proof.
  unfold analyze_situation, analyze_try, call_ai.
  intros [-> | [-> | (c & -> & Hc)]].
  - reflexivity.
  - destruct groq_client; [|reflexivity]. simpl negb. cbv iota.
    change (lit "{}") with (123%N :: lit "}") in loads_empty_object.
    change (lit "{}") with (123%N :: lit "}").
    rewrite loads_empty_object. apply analyze_data_empty.
  - destruct groq_client; [|reflexivity]. simpl.
    destruct c as [|c0 c]; [reflexivity|].
    by destruct Hc as [-> | ->].
Qed.

(** ** The alert decision *)

Lemma allowed_not_suppressed stage :
  in_strings stage ALLOWED_ALERT_STAGES = true → in_strings stage SUPPRESSED_STAGES = false.
Proof.
  destruct stage as [|s|]; simpl; try done.
  intros Hs%bool_decide_eq_true. apply bool_decide_eq_false.
  unfold ALLOWED_ALERT_STAGES in Hs. unfold SUPPRESSED_STAGES.
  rewrite !elem_of_cons, elem_of_nil in *.
  destruct Hs as [-> | [-> | []]]; intros [? | [? | [? | []]]]; discriminate.
Qed.

(** The alert fires for a confirmed contact, or under the latch; the latch
    is set in the second case only. The suppression of line 267 never
    applies to either. *)
Lemma alert_logic_spec stage found agr has sess :
  let high := negb found && (in_strings stage ALLOWED_ALERT_STAGES || agr)
              && has && negb (high_priority_alert_sent sess) in
  alert_logic stage found agr has sess =
    (found || high, if high then with_high_priority true sess else sess).
Proof.
  cbv zeta. unfold alert_logic.
  destruct (in_strings stage ALLOWED_ALERT_STAGES) eqn:Hallowed;
    [rewrite (allowed_not_suppressed _ Hallowed)
    | destruct (in_strings stage SUPPRESSED_STAGES)];
    destruct found, agr, has, (high_priority_alert_sent sess); reflexivity.
Qed.

(** ** One chat turn *)

(** [chat_endpoint] on the fields of an object, with the pairs it computes
    written as projections. *)
Lemma chat_endpoint_fields SESSIONS b r :
  let a := analyze_situation is_digit json_loads groq_client
             (turn_session is_digit SESSIONS b) (msg_of b) (analysis_reply r) in
  let agr := is_agreement lower (msg_of b) in
  let has := is_real_contact is_digit (contact (profile_of a.2)) in
  let d := alert_logic a.1.1 a.1.2 agr has a.2 in
  let bot := call_ai groq_client false (generation_reply r) in
  chat_endpoint is_digit lower json_loads groq_client SESSIONS (Fields b) r =
    (<[sid_of b :=
         Session
           (last_n HISTORY_LIMIT
              (history d.2 ++ [Turn User (Some (msg_of b)); Turn Assistant bot]))
           (profile_of d.2) (d.1 || alert_sent d.2) (high_priority_alert_sent d.2)]>
       SESSIONS,
     Response bot [] (Some (contact (profile_of d.2))) 200,
     Some (ChatLog (sid_of b) (msg_of b) a.1.1 a.1.2 agr has
             (if d.1
              then Some (Report (sid_of b) (profile_of d.2)
                           (history d.2 ++ [Turn User (Some (msg_of b))])
                           (alert_title a.1.1 a.1.2 agr))
              else None)
             bot)).
Proof.
  unfold chat_endpoint, turn_session, sid_of, msg_of, generate_smart_response.
  destruct (analyze_situation _ _ _ _ _ _) as [[stage found] sess]. simpl.
  destruct (alert_logic _ _ _ _ _) as [[|] sess1]; simpl; reflexivity.
Qed.

Lemma seed_contact_rest stored sess :
  history (seed_contact is_digit stored sess) = history sess
  ∧ alert_sent (seed_contact is_digit stored sess) = alert_sent sess
  ∧ high_priority_alert_sent (seed_contact is_digit stored sess)
    = high_priority_alert_sent sess.
Proof. unfold seed_contact. repeat case_match; done. Qed.

(** The whole turn in terms of the session it started from: what is
    stored, what is answered and what is logged. *)
Lemma chat_turn SESSIONS b r :
  let sess0 := default new_session (SESSIONS !! sid_of b) in
  let a := analyze_situation is_digit json_loads groq_client
             (turn_session is_digit SESSIONS b) (msg_of b) (analysis_reply r) in
  let agr := is_agreement lower (msg_of b) in
  let has := is_real_contact is_digit (contact (profile_of a.2)) in
  let high := negb a.1.2 && (in_strings a.1.1 ALLOWED_ALERT_STAGES || agr)
              && has && negb (high_priority_alert_sent sess0) in
  let bot := call_ai groq_client false (generation_reply r) in
  chat_endpoint is_digit lower json_loads groq_client SESSIONS (Fields b) r =
    (<[sid_of b :=
         Session
           (last_n HISTORY_LIMIT
              (history sess0 ++ [Turn User (Some (msg_of b)); Turn Assistant bot]))
           (profile_of a.2) (a.1.2 || high || alert_sent sess0)
           (high || high_priority_alert_sent sess0)]>
       SESSIONS,
     Response bot [] (Some (contact (profile_of a.2))) 200,
     Some (ChatLog (sid_of b) (msg_of b) a.1.1 a.1.2 agr has
             (if a.1.2 || high
              then Some (Report (sid_of b) (profile_of a.2)
                           (history sess0 ++ [Turn User (Some (msg_of b))])
                           (alert_title a.1.1 a.1.2 agr))
              else None)
             bot)).
Proof.
  cbv zeta. rewrite chat_endpoint_fields. cbv zeta. rewrite alert_logic_spec. cbv zeta.
  destruct (analyze_situation_rest (turn_session is_digit SESSIONS b) (msg_of b)
              (analysis_reply r)) as (Hh & Ha & Hl).
  destruct (seed_contact_rest (stored_contact b) (default new_session (SESSIONS !! sid_of b)))
    as (Hh' & Ha' & Hl').
  fold (turn_session is_digit SESSIONS b) in Hh', Ha', Hl'.
  rewrite Hh', Ha', Hl' in *.
  set (a := analyze_situation _ _ _ _ _ _) in *.
  rewrite Hl.
  match goal with |- context [if ?h then with_high_priority true _ else _] =>
    destruct h end; simpl; rewrite ?Hh, ?Ha, ?Hl, ?orb_true_r, ?orb_false_r; reflexivity.
Qed.

Lemma chat_endpoint_logged SESSIONS data r SESSIONS' resp l :
  chat_endpoint is_digit lower json_loads groq_client SESSIONS data r
    = (SESSIONS', resp, Some l) →
  ∃ b, data = Fields b.
Proof. destruct data; [discriminate | eauto]. Qed.

Lemma latch_default SESSIONS sid :
  high_priority_alert_sent (default new_session (SESSIONS !! sid)) = latch SESSIONS sid.
Proof. unfold latch. by destruct (SESSIONS !! sid). Qed.

(** The latch of a session after a turn is its latch before, or the turn
    was an alert of that session without a confirmed contact. *)
Lemma chat_endpoint_latch SESSIONS data r SESSIONS' resp log sid :
  chat_endpoint is_digit lower json_loads groq_client SESSIONS data r
    = (SESSIONS', resp, log) →
  latch SESSIONS' sid =
    latch SESSIONS sid
    || match log with
       | Some l => bool_decide (log_session l = sid) && high_priority_alert l
       | None => false
       end.
Proof.
  destruct data as [|b].
  - intros [= <- _ <-]. by rewrite orb_false_r.
  - rewrite chat_turn. cbv zeta. intros [= <- _ <-].
    unfold high_priority_alert, alerted. simpl.
    rewrite latch_default.
    destruct (decide (sid_of b = sid)) as [<- | Hne].
    + rewrite bool_decide_eq_true_2 by done.
      unfold latch at 1. rewrite lookup_insert_eq. simpl.
      destruct (in_strings _ ALLOWED_ALERT_STAGES), (is_agreement lower (msg_of b)),
        (is_real_contact is_digit _), (latch SESSIONS (sid_of b)),
        (analyze_situation _ _ _ _ _ _).1.2; reflexivity.
    + rewrite bool_decide_eq_false_2 by done.
      unfold latch at 1. rewrite lookup_insert_ne by done.
      fold (latch SESSIONS sid). by rewrite orb_false_r.
Qed.

(** An alert without a confirmed contact needs the latch unset, a stored
    contact that passes the validator, and an allowed stage or an
    agreement word. *)
Lemma high_priority_alert_inv SESSIONS data r SESSIONS' resp l :
  chat_endpoint is_digit lower json_loads groq_client SESSIONS data r
    = (SESSIONS', resp, Some l) →
  high_priority_alert l = true →
  latch SESSIONS (log_session l) = false
  ∧ log_has_contact l = true
  ∧ (in_strings (log_stage l) ALLOWED_ALERT_STAGES = true ∨ log_agreement l = true).
Proof.
  intros Hrun. destruct (chat_endpoint_logged _ _ _ _ _ _ Hrun) as [b ->].
  revert Hrun. rewrite chat_turn. cbv zeta. intros [= _ _ <-].
  unfold high_priority_alert, alerted. simpl. rewrite latch_default.
  destruct (in_strings _ ALLOWED_ALERT_STAGES), (is_agreement lower (msg_of b)),
    (is_real_contact is_digit _), (latch SESSIONS (sid_of b)),
    (analyze_situation _ _ _ _ _ _).1.2; simpl; intros; try discriminate; auto.
Qed.

(** When a turn alerts: a contact was confirmed, or the stage is an allowed
    one or the message agrees, the stored contact passes the validator and
    the latch of the session is not set yet. *)
Lemma alerted_spec SESSIONS data r SESSIONS' resp l :
  chat_endpoint is_digit lower json_loads groq_client SESSIONS data r
    = (SESSIONS', resp, Some l) →
  alerted l =
    log_found l
    || ((in_strings (log_stage l) ALLOWED_ALERT_STAGES || log_agreement l)
        && log_has_contact l && negb (latch SESSIONS (log_session l))).
Proof.
  intros Hrun. destruct (chat_endpoint_logged _ _ _ _ _ _ Hrun) as [b ->].
  revert Hrun. rewrite chat_turn. cbv zeta. intros [= _ _ <-].
  unfold alerted. simpl. rewrite latch_default.
  destruct (in_strings _ ALLOWED_ALERT_STAGES), (is_agreement lower (msg_of b)),
    (is_real_contact is_digit _), (latch SESSIONS (sid_of b)),
    (analyze_situation _ _ _ _ _ _).1.2; reflexivity.
Qed.

(** The report of a turn that alerts: its session, its title and its
    transcript, which ends with the message of the turn. *)
Lemma log_report_spec SESSIONS data r SESSIONS' resp l rep :
  chat_endpoint is_digit lower json_loads groq_client SESSIONS data r
    = (SESSIONS', resp, Some l) →
  log_report l = Some rep →
  report_session rep = log_session l
  ∧ report_title rep = alert_title (log_stage l) (log_found l) (log_agreement l)
  ∧ report_history rep =
      history (default new_session (SESSIONS !! log_session l))
      ++ [Turn User (Some (log_message l))].
Proof.
  intros Hrun. destruct (chat_endpoint_logged _ _ _ _ _ _ Hrun) as [b ->].
  revert Hrun. rewrite chat_turn. cbv zeta. intros [= _ _ <-]. simpl.
  case_match; [|discriminate]. by intros [= <-].
Qed.

(** ** Runs *)

Lemma run_cons SESSIONS e es :
  run is_digit lower json_loads groq_client SESSIONS (e :: es) =
    let st := step is_digit lower json_loads groq_client SESSIONS e in
    let rest := run is_digit lower json_loads groq_client st.1 es in
    (rest.1, match st.2 with Some l => l :: rest.2 | None => rest.2 end).
Proof.
  simpl. destruct (step _ _ _ _ _ _) as [S1 log]. simpl.
  by destruct (run _ _ _ _ _ _) as [S2 logs].
Qed.

Lemma step_chat SESSIONS data r :
  step is_digit lower json_loads groq_client SESSIONS (ChatRequest data r) =
    let res := chat_endpoint is_digit lower json_loads groq_client SESSIONS data r in
    (res.1.1, res.2).
Proof. simpl. by destruct (chat_endpoint _ _ _ _ _ _ _) as [[S1 resp] log]. Qed.

(** Every log of a run is the log of one call of [chat_endpoint]. *)
Lemma run_logged SESSIONS es l :
  l ∈ (run is_digit lower json_loads groq_client SESSIONS es).2 →
  ∃ S0 data r S1 resp,
    chat_endpoint is_digit lower json_loads groq_client S0 data r = (S1, resp, Some l).
Proof.
  revert SESSIONS. induction es as [|e es IH]; intros SESSIONS.
  - simpl. by intros ?%elem_of_nil.
  - rewrite run_cons. cbv zeta. simpl.
    destruct e as [data r | data].
    + rewrite step_chat. cbv zeta. simpl.
      destruct (chat_endpoint _ _ _ _ SESSIONS data r) as [[S1 resp] [l0|]] eqn:Hrun; simpl.
      * intros [-> | Hin]%elem_of_cons; [eauto 6 | eauto].
      * eauto.
    + simpl. eauto.
Qed.

(** The alerts without a confirmed contact that a session can still get:
    none once its latch is set, one at most before. *)
Lemma high_priority_alerts_bound SESSIONS es sid :
  high_priority_alerts sid (run is_digit lower json_loads groq_client SESSIONS es).2
    + (if latch SESSIONS sid then 1 else 0) ≤ 1.
Proof.
  revert SESSIONS. induction es as [|e es IH]; intros SESSIONS.
  - simpl. destruct (latch SESSIONS sid); lia.
  - rewrite run_cons. cbv zeta. simpl.
    destruct e as [data r | data]; [|apply IH].
    rewrite step_chat. cbv zeta. simpl.
    destruct (chat_endpoint _ _ _ _ SESSIONS data r) as [[S1 resp] log] eqn:Hrun. simpl.
    pose proof (chat_endpoint_latch _ _ _ _ _ _ sid Hrun) as Hlatch.
    specialize (IH S1). rewrite Hlatch in IH.
    destruct log as [l|]; simpl.
    + destruct (bool_decide (log_session l = sid)) eqn:Hsid; simpl in *.
      * destruct (high_priority_alert l) eqn:Hhigh; simpl in *.
        -- apply bool_decide_eq_true in Hsid. subst sid.
           destruct (high_priority_alert_inv _ _ _ _ _ _ Hrun Hhigh) as [Hunset _].
           rewrite Hunset. rewrite orb_true_r in IH. lia.
        -- by rewrite orb_false_r in IH.
      * by rewrite orb_false_r in IH.
    + by rewrite orb_false_r in IH.
Qed.

(** ** The alert rules *)

(** C2. In every run of the server, from the empty store or any other, each
    session gets at most one alert that is not for a contact confirmed on
    the turn. Such
    an alert needs the latch of the session unset and sets it, and once the
    latch is set no later turn of the session alerts in this way. In
    particular, of two consecutive turns of a session whose latch is unset,
    both at stage [SALES_READY] with a stored contact and no contact
    confirmed, the first alerts and the second does not. *)
Theorem one_high_priority_alert_per_session :
  (∀ SESSIONS es sid,
     high_priority_alerts sid
       (run is_digit lower json_loads groq_client SESSIONS es).2 ≤ 1)
  ∧ (∀ SESSIONS es sid,
       latch SESSIONS sid = true →
       high_priority_alerts sid
         (run is_digit lower json_loads groq_client SESSIONS es).2 = 0)
  ∧ (∀ SESSIONS data r SESSIONS' resp l,
       chat_endpoint is_digit lower json_loads groq_client SESSIONS data r
         = (SESSIONS', resp, Some l) →
       high_priority_alert l = true →
       latch SESSIONS (log_session l) = false
       ∧ latch SESSIONS' (log_session l) = true
       ∧ log_has_contact l = true
       ∧ (in_strings (log_stage l) ALLOWED_ALERT_STAGES = true ∨ log_agreement l = true))
  ∧ (∀ SESSIONS data1 r1 data2 r2 S1 resp1 l1 S2 resp2 l2,
       chat_endpoint is_digit lower json_loads groq_client SESSIONS data1 r1
         = (S1, resp1, Some l1) →
       chat_endpoint is_digit lower json_loads groq_client S1 data2 r2
         = (S2, resp2, Some l2) →
       log_session l2 = log_session l1 →
       latch SESSIONS (log_session l1) = false →
       log_stage l1 = PStr (lit "SALES_READY") →
       log_stage l2 = PStr (lit "SALES_READY") →
       log_has_contact l1 = true →
       log_found l1 = false → log_found l2 = false →
       alerted l1 = true ∧ alerted l2 = false
       ∧ high_priority_alerts (log_session l1) [l1; l2] = 1).
Proof.
  split_and!.
  - intros SESSIONS es sid.
    pose proof (high_priority_alerts_bound SESSIONS es sid). lia.
  - intros SESSIONS es sid Hset.
    pose proof (high_priority_alerts_bound SESSIONS es sid) as Hb.
    rewrite Hset in Hb. lia.
  - intros SESSIONS data r SESSIONS' resp l Hrun Hhigh.
    destruct (high_priority_alert_inv _ _ _ _ _ _ Hrun Hhigh) as (Hunset & Hhas & Hwhy).
    split_and!; try done.
    rewrite (chat_endpoint_latch _ _ _ _ _ _ (log_session l) Hrun), Hhigh.
    rewrite bool_decide_eq_true_2 by done. apply orb_true_r.
  - intros SESSIONS data1 r1 data2 r2 S1 resp1 l1 S2 resp2 l2
      Hrun1 Hrun2 Hsid Hunset Hst1 Hst2 Hhas1 Hf1 Hf2.
    assert (alerted l1 = true) as Ha1.
    { rewrite (alerted_spec _ _ _ _ _ _ Hrun1), Hst1, Hhas1, Hunset. by rewrite Hf1. }
    assert (latch S1 (log_session l1) = true) as Hset.
    { rewrite (chat_endpoint_latch _ _ _ _ _ _ (log_session l1) Hrun1).
      unfold high_priority_alert. rewrite Ha1, Hf1.
      rewrite bool_decide_eq_true_2 by done. apply orb_true_r. }
    assert (alerted l2 = false) as Ha2.
    { rewrite (alerted_spec _ _ _ _ _ _ Hrun2), Hf2, Hsid, Hset. simpl.
      apply andb_false_r. }
    split_and!; try done.
    simpl. unfold high_priority_alert. rewrite Ha1, Ha2, Hf1, Hsid. simpl.
    by rewrite bool_decide_eq_true_2.
Qed.

(** C3. A turn on which a contact is confirmed alerts, whatever the latches
    and the stage are, and its report carries the new-contact title. So
    every turn of a run that confirms a contact alerts: the second of two
    such turns of a session as well as the first. *)
Theorem confirmed_contact_alerts :
  (∀ SESSIONS data r SESSIONS' resp l,
     chat_endpoint is_digit lower json_loads groq_client SESSIONS data r
       = (SESSIONS', resp, Some l) →
     log_found l = true →
     ∃ rep, log_report l = Some rep
            ∧ report_session rep = log_session l
            ∧ report_title rep = NEW_CONTACT_TITLE)
  ∧ (∀ SESSIONS es l,
       l ∈ (run is_digit lower json_loads groq_client SESSIONS es).2 →
       log_found l = true →
       ∃ rep, log_report l = Some rep ∧ report_title rep = NEW_CONTACT_TITLE).
Proof.
  assert (∀ SESSIONS data r SESSIONS' resp l,
     chat_endpoint is_digit lower json_loads groq_client SESSIONS data r
       = (SESSIONS', resp, Some l) →
     log_found l = true →
     ∃ rep, log_report l = Some rep
            ∧ report_session rep = log_session l
            ∧ report_title rep = NEW_CONTACT_TITLE) as Hturn.
  { intros SESSIONS data r SESSIONS' resp l Hrun Hfound.
    pose proof (alerted_spec _ _ _ _ _ _ Hrun) as Ha. rewrite Hfound in Ha.
    unfold alerted in Ha. destruct (log_report l) as [rep|] eqn:Hrep; [|discriminate].
    exists rep. destruct (log_report_spec _ _ _ _ _ _ _ Hrun Hrep) as (Hs & Ht & _).
    rewrite Hfound in Ht. done. }
  split; [exact Hturn|].
  intros SESSIONS es l Hin Hfound.
  destruct (run_logged _ _ _ Hin) as (S0 & data & r & S1 & resp & Hrun).
  destruct (Hturn _ _ _ _ _ _ Hrun Hfound) as (rep & ? & _ & ?). eauto.
Qed.

(** C4. A turn whose stage is [GREETING], [DISCOVERY] or [CONSULTING], with
    no contact confirmed and no agreement word in the message, sends no
    alert; the decision is negative whatever the stored contact and the
    latch are, and it leaves the session as it was. *)
Theorem early_stage_suppression :
  (∀ SESSIONS data r SESSIONS' resp l,
     chat_endpoint is_digit lower json_loads groq_client SESSIONS data r
       = (SESSIONS', resp, Some l) →
     in_strings (log_stage l) SUPPRESSED_STAGES = true →
     log_found l = false → log_agreement l = false →
     log_report l = None)
  ∧ (∀ stage has sess,
       in_strings stage SUPPRESSED_STAGES = true →
       alert_logic stage false false has sess = (false, sess)).
Proof.
  assert (∀ stage, in_strings stage SUPPRESSED_STAGES = true →
                   in_strings stage ALLOWED_ALERT_STAGES = false) as Hnot.
  { intros stage Hs. destruct (in_strings stage ALLOWED_ALERT_STAGES) eqn:Ha; [|done].
    apply allowed_not_suppressed in Ha. congruence. }
  split.
  - intros SESSIONS data r SESSIONS' resp l Hrun Hstage Hfound Hagr.
    pose proof (alerted_spec _ _ _ _ _ _ Hrun) as Ha.
    rewrite Hfound, Hagr, (Hnot _ Hstage) in Ha. simpl in Ha.
    unfold alerted in Ha. by destruct (log_report l).
  - intros stage has sess Hstage.
    rewrite alert_logic_spec. cbv zeta. by rewrite (Hnot _ Hstage).
Qed.

(** C5. A turn on which the latch of a session goes from unset to set is a
    turn of that session that sends an alert: the decision that sets the
    latch is positive, the suppression of the early stages does not apply
    to it. *)
Theorem latch_transition_alerts :
  (∀ SESSIONS data r SESSIONS' resp log sid,
     chat_endpoint is_digit lower json_loads groq_client SESSIONS data r
       = (SESSIONS', resp, log) →
     latch SESSIONS sid = false → latch SESSIONS' sid = true →
     ∃ l rep, log = Some l ∧ log_session l = sid
              ∧ log_report l = Some rep ∧ report_session rep = sid)
  ∧ (∀ stage found agr has sess,
       high_priority_alert_sent sess = false →
       high_priority_alert_sent (alert_logic stage found agr has sess).2 = true →
       (alert_logic stage found agr has sess).1 = true).
Proof.
  split.
  - intros SESSIONS data r SESSIONS' resp log sid Hrun Hunset Hset.
    rewrite (chat_endpoint_latch _ _ _ _ _ _ sid Hrun), Hunset in Hset. simpl in Hset.
    destruct log as [l|]; [|discriminate].
    apply andb_true_iff in Hset as [Hsid%bool_decide_eq_true Hhigh].
    unfold high_priority_alert, alerted in Hhigh.
    destruct (log_report l) as [rep|] eqn:Hrep; [|discriminate].
    exists l, rep. split_and!; try done.
    destruct (log_report_spec _ _ _ _ _ _ _ Hrun Hrep) as (Hs & _). congruence.
  - intros stage found agr has sess Hunset.
    rewrite alert_logic_spec. cbv zeta. rewrite Hunset.
    case_match; simpl; [intros _; apply orb_true_r | congruence].
Qed.

(** ** The contact of the profile *)

Lemma seed_contact_contact stored sess :
  contact (profile_of (seed_contact is_digit stored sess)) =
    if truthy stored && negb (truthy (contact (profile_of sess)))
       && is_real_contact is_digit stored
    then stored
    else contact (profile_of sess).
Proof. unfold seed_contact. repeat case_match; done. Qed.

Lemma contact_default SESSIONS sid :
  contact (profile_of (default new_session (SESSIONS !! sid))) = contact_of SESSIONS sid.
Proof. unfold contact_of. by destruct (SESSIONS !! sid). Qed.

Lemma contact_of_insert SESSIONS sid sid' sess :
  contact_of (<[sid' := sess]> SESSIONS) sid =
    if decide (sid' = sid) then contact (profile_of sess) else contact_of SESSIONS sid.
Proof.
  unfold contact_of. case_decide as Heq.
  - subst. by rewrite lookup_insert_eq.
  - by rewrite lookup_insert_ne.
Qed.

(** The writes of one turn to the contact of a session. *)
Lemma chat_endpoint_contact SESSIONS data r SESSIONS' resp log sid :
  chat_endpoint is_digit lower json_loads groq_client SESSIONS data r
    = (SESSIONS', resp, log) →
  contact_of SESSIONS' sid = contact_of SESSIONS sid
  ∨ (∃ l, log = Some l ∧ log_session l = sid ∧ log_found l = true
          ∧ classifier_contact json_loads groq_client (analysis_reply r)
            = Some (contact_of SESSIONS' sid)
          ∧ is_real_contact is_digit (contact_of SESSIONS' sid) = true
          ∧ appears is_digit (contact_of SESSIONS' sid) (log_message l))
  ∨ (∃ b, data = Fields b ∧ sid_of b = sid
          ∧ truthy (contact_of SESSIONS sid) = false
          ∧ contact_of SESSIONS' sid = stored_contact b
          ∧ is_real_contact is_digit (stored_contact b) = true).
Proof.
  destruct data as [|b].
  - intros [= <- _ _]. by left.
  - rewrite chat_turn. cbv zeta. intros [= <- _ <-].
    rewrite contact_of_insert. simpl. case_decide as Hsid; [|by left].
    destruct (analyze_situation is_digit json_loads groq_client
                (turn_session is_digit SESSIONS b) (msg_of b) (analysis_reply r))
      as [[stage found] sess'] eqn:Hrun.
    destruct (analyze_situation_confirmation _ _ _ _ _ _ Hrun) as (Hiff & Hyes & Hno). simpl.
    destruct found.
    + right; left. eexists. split_and!; try done.
      * by apply Hyes.
      * destruct Hiff as [(e & He & Hreal & _) _]; [done|].
        rewrite Hyes in He by done. by injection He as <-.
      * destruct Hiff as [(e & He & _ & Happ) _]; [done|].
        rewrite Hyes in He by done. by injection He as <-.
    + rewrite Hno by done. unfold turn_session.
      rewrite seed_contact_contact, contact_default, Hsid.
      destruct (truthy (stored_contact b)); simpl; [|by left].
      destruct (truthy (contact_of SESSIONS sid)) eqn:Hset; simpl; [by left|].
      destruct (is_real_contact is_digit (stored_contact b)) eqn:Hreal; [|by left].
      right; right. exists b. done.
Qed.

Lemma chat_endpoint_contact_kept SESSIONS data r SESSIONS' resp log sid :
  chat_endpoint is_digit lower json_loads groq_client SESSIONS data r
    = (SESSIONS', resp, log) →
  truthy (contact_of SESSIONS sid) = true → truthy (contact_of SESSIONS' sid) = true.
Proof.
  intros Hrun Hset.
  destruct (chat_endpoint_contact _ _ _ _ _ _ sid Hrun)
    as [-> | [(l & _ & _ & _ & _ & Hreal & _) | (b & _ & _ & Hunset & _)]].
  - done.
  - by apply is_real_contact_truthy.
  - congruence.
Qed.

(** C8. The contact of a session is written by a turn in two ways only: by
    a contact confirmed on that turn, which is the value the classifier
    extracted, passes the validator and appears in the message; or by the
    stored contact of the request, when the session had no contact and the
    stored value passes the validator. A session that has a contact keeps
    one through every turn and every run; the report route writes nothing. *)
Theorem contact_writes :
  (∀ SESSIONS data r SESSIONS' resp log sid,
     chat_endpoint is_digit lower json_loads groq_client SESSIONS data r
       = (SESSIONS', resp, log) →
     contact_of SESSIONS' sid = contact_of SESSIONS sid
     ∨ (∃ l, log = Some l ∧ log_session l = sid ∧ log_found l = true
             ∧ classifier_contact json_loads groq_client (analysis_reply r)
               = Some (contact_of SESSIONS' sid)
             ∧ is_real_contact is_digit (contact_of SESSIONS' sid) = true
             ∧ appears is_digit (contact_of SESSIONS' sid) (log_message l))
     ∨ (∃ b, data = Fields b ∧ sid_of b = sid
             ∧ truthy (contact_of SESSIONS sid) = false
             ∧ contact_of SESSIONS' sid = stored_contact b
             ∧ is_real_contact is_digit (stored_contact b) = true))
  ∧ (∀ SESSIONS data,
       (step is_digit lower json_loads groq_client SESSIONS (ReportRequest data)).1
       = SESSIONS)
  ∧ (∀ SESSIONS es sid,
       truthy (contact_of SESSIONS sid) = true →
       truthy (contact_of (run is_digit lower json_loads groq_client SESSIONS es).1 sid)
       = true)
  ∧ (∀ es sid,
       let c := contact_of (run is_digit lower json_loads groq_client ∅ es).1 sid in
       c = PNone ∨ is_real_contact is_digit c = true).
Proof.
  split_and!.
  - apply chat_endpoint_contact.
  - done.
  - intros SESSIONS es. revert SESSIONS.
    induction es as [|e es IH]; intros SESSIONS sid Hset; [done|].
    rewrite run_cons. cbv zeta. simpl. apply IH.
    destruct e as [data r | data]; [|done].
    rewrite step_chat. cbv zeta. simpl.
    destruct (chat_endpoint _ _ _ _ SESSIONS data r) as [[S1 resp] log] eqn:Hrun.
    by apply (chat_endpoint_contact_kept _ _ _ _ _ _ sid Hrun).
  - cbv zeta. intros es sid.
    assert (∀ SESSIONS,
      (contact_of SESSIONS sid = PNone
       ∨ is_real_contact is_digit (contact_of SESSIONS sid) = true) →
      contact_of (run is_digit lower json_loads groq_client SESSIONS es).1 sid = PNone
      ∨ is_real_contact is_digit
          (contact_of (run is_digit lower json_loads groq_client SESSIONS es).1 sid)
        = true) as Hinv.
    { induction es as [|e es IH]; intros SESSIONS Hok; [done|].
      rewrite run_cons. cbv zeta. simpl. apply IH.
      destruct e as [data r | data]; [|done].
      rewrite step_chat. cbv zeta. simpl.
      destruct (chat_endpoint _ _ _ _ SESSIONS data r) as [[S1 resp] log] eqn:Hrun.
      simpl.
      destruct (chat_endpoint_contact _ _ _ _ _ _ sid Hrun)
        as [-> | [(l & _ & _ & _ & _ & Hreal & _) | (b & _ & _ & _ & -> & Hreal)]];
        auto. }
    apply Hinv. by left.
Qed.

(** ** The history *)

Lemma history_default SESSIONS sid :
  history (default new_session (SESSIONS !! sid)) = history_of SESSIONS sid.
Proof. unfold history_of. by destruct (SESSIONS !! sid). Qed.

(** The history of a session after a turn: the turn of that session adds
    the message and the reply and keeps the last [HISTORY_LIMIT] entries. *)
Lemma chat_endpoint_history SESSIONS data r SESSIONS' resp log sid :
  chat_endpoint is_digit lower json_loads groq_client SESSIONS data r
    = (SESSIONS', resp, log) →
  history_of SESSIONS' sid =
    match log with
    | Some l =>
        if bool_decide (log_session l = sid)
        then last_n HISTORY_LIMIT
               (history_of SESSIONS sid
                ++ [Turn User (Some (log_message l)); Turn Assistant (log_reply l)])
        else history_of SESSIONS sid
    | None => history_of SESSIONS sid
    end.
Proof.
  destruct data as [|b].
  - by intros [= <- _ <-].
  - rewrite chat_turn. cbv zeta. intros [= <- _ <-]. simpl.
    rewrite history_default. unfold history_of at 1.
    case_bool_decide as Hsid.
    + subst sid. by rewrite lookup_insert_eq.
    + by rewrite lookup_insert_ne.
Qed.

Lemma run_history SESSIONS es sid :
  length (history_of SESSIONS sid) ≤ HISTORY_LIMIT →
  history_of (run is_digit lower json_loads groq_client SESSIONS es).1 sid =
    last_n HISTORY_LIMIT
      (history_of SESSIONS sid
       ++ arrivals sid (run is_digit lower json_loads groq_client SESSIONS es).2).
Proof.
  revert SESSIONS. induction es as [|e es IH]; intros SESSIONS Hlen.
  - simpl. by rewrite app_nil_r, last_n_short.
  - rewrite run_cons. cbv zeta. simpl.
    destruct e as [data r | data]; [|by apply IH].
    rewrite step_chat. cbv zeta. simpl.
    destruct (chat_endpoint _ _ _ _ SESSIONS data r) as [[S1 resp] log] eqn:Hrun.
    simpl.
    pose proof (chat_endpoint_history _ _ _ _ _ _ sid Hrun) as Hh.
    destruct log as [l|]; simpl.
    + destruct (bool_decide (log_session l = sid)) eqn:Hsid.
      * rewrite IH by (rewrite Hh; apply last_n_length).
        rewrite Hh, last_n_app. by rewrite <- app_assoc.
      * rewrite IH by (by rewrite Hh). by rewrite Hh.
    + rewrite IH by (by rewrite Hh). by rewrite Hh.
Qed.


(** ** The reply of the chat route *)

(** [completed_turn] with the pairs it computes written as projections. *)
Lemma completed_turn_fields sess stored m r :
  let a := analyze_situation is_digit json_loads groq_client
             (seed_contact is_digit stored sess) m (analysis_reply r) in
  let d := alert_logic a.1.1 a.1.2 (is_agreement lower m)
             (is_real_contact is_digit (contact (profile_of a.2))) a.2 in
  let bot := call_ai groq_client false (generation_reply r) in
  completed_turn is_digit lower json_loads groq_client sess stored m r =
    (Session
       (last_n HISTORY_LIMIT (history d.2 ++ [Turn User (Some m); Turn Assistant bot]))
       (profile_of d.2) (d.1 || alert_sent d.2) (high_priority_alert_sent d.2),
     Response bot [] (Some (contact (profile_of d.2))) 200).
Proof.
  unfold completed_turn, generate_smart_response.
  destruct (analyze_situation _ _ _ _ _ _) as [[stage found] sess1]. simpl.
  destruct (alert_logic _ _ _ _ _) as [[|] sess2]; reflexivity.
Qed.

(** On the requests of [body], [chat_endpoint_raw] gives the reply of
    [chat_endpoint] and leaves the same sessions under the string keys. *)
Lemma chat_endpoint_raw_typed (RAW : gmap key session) (SESSIONS : gmap pystr session)
    data r :
  (∀ s, RAW !! KText s = SESSIONS !! s) →
  (chat_endpoint_raw is_digit lower json_loads groq_client RAW (raw_of data) r).2
  = (chat_endpoint is_digit lower json_loads groq_client SESSIONS data r).1.2
  ∧ ∀ s,
      (chat_endpoint_raw is_digit lower json_loads groq_client RAW (raw_of data) r).1
        !! KText s
      = (chat_endpoint is_digit lower json_loads groq_client SESSIONS data r).1.1 !! s.
Proof.
  intros Hsame. destruct data as [|b]; [done|].
  rewrite chat_endpoint_fields. cbv zeta.
  unfold raw_of, chat_endpoint_raw, raw_of_body. cbn [raw_message raw_session_id raw_stored_contact].
  replace (default (MText []) (MText <$> message b)) with (MText (msg_of b))
    by (unfold msg_of; by destruct (message b)).
  replace (default (Hashable (KText (lit "guest")))
             ((fun s => Hashable (KText s)) <$> session_id b))
    with (Hashable (KText (sid_of b)))
    by (unfold sid_of; by destruct (session_id b)).
  rewrite Hsame, completed_turn_fields. cbv zeta. unfold turn_session.
  split; [done|].
  intros s. cbn [fst snd]. rewrite !lookup_insert.
  destruct (decide (sid_of b = s)) as [-> | Hne].
  - by rewrite !decide_True.
  - rewrite !decide_False by congruence. apply Hsame.
Qed.

(** The reply of a turn that completes. *)
Lemma completed_turn_reply sess stored m r :
  let res := completed_turn is_digit lower json_loads groq_client sess stored m r in
  status res.2 = 200
  ∧ quick_replies res.2 = []
  ∧ save_contact res.2 = Some (contact (profile_of res.1))
  ∧ (groq_client = true →
       ∃ t, text res.2 = Some t
            ∧ (∀ c, generation_reply r = Content c → t = c)
            ∧ (generation_reply r = ApiError → t = lit "System Error.")).
Proof.
  cbv zeta. rewrite completed_turn_fields. cbv zeta. cbn [fst snd].
  split_and!; try done.
  intros Hclient. cbn [text]. unfold call_ai. rewrite Hclient. cbn [negb].
  destruct (generation_reply r) as [|c]; eexists; split_and!; try done.
  by intros c' [= ->].
Qed.

(** A turn that line 258 aborts has written the profile at most: the
    history and the two flags of the session are as before. *)
Lemma aborted_turn_rest sess stored text member r :
  history (aborted_turn is_digit json_loads groq_client sess stored text member r)
  = history sess
  ∧ alert_sent (aborted_turn is_digit json_loads groq_client sess stored text member r)
    = alert_sent sess
  ∧ high_priority_alert_sent
      (aborted_turn is_digit json_loads groq_client sess stored text member r)
    = high_priority_alert_sent sess.
Proof.
  destruct (seed_contact_rest stored sess) as (Hh & Ha & Hl).
  unfold aborted_turn, analyze_situation_other.
  repeat case_match; simpl; by rewrite ?Hh, ?Ha, ?Hl.
Qed.

(** C6, for the replies the route builds. Every request is answered with
    status 200 and an object with an empty [quick_replies]. When the route
    raises (the body is not an object, the session key cannot be hashed, or
    the message is not a string) the object is exactly the generic error
    text and [quick_replies], without [save_contact]. When the turn
    completes, [save_contact] is the contact of the session, and with the
    text-generation client in place the text is a string: the reply of the
    service, or the generic error text when the call raises. *)
Theorem chat_response_contract (RAW : gmap key session) data r :
  let res := chat_endpoint_raw is_digit lower json_loads groq_client RAW data r in
  status res.2 = 200
  ∧ quick_replies res.2 = []
  ∧ (request_fails data = true →
       res.2 = Response (Some (lit "System Error.")) [] None 200)
  ∧ (request_fails data = false →
       ∃ b k, data = RawFields b ∧ request_key b = Some k
              ∧ save_contact res.2 = Some (contact_at res.1 k)
              ∧ (groq_client = true →
                   ∃ t, text res.2 = Some t
                        ∧ (∀ c, generation_reply r = Content c → t = c)
                        ∧ (generation_reply r = ApiError → t = lit "System Error."))).
Proof.
  cbv zeta. destruct data as [|[msg kv stored lang]]; [by split_and!|].
  unfold chat_endpoint_raw, request_fails, request_key.
  cbn [raw_message raw_session_id raw_stored_contact].
  destruct kv as [[k|]|]; cbn [default from_option id];
    [| by split_and! |];
    (destruct msg as [[m|text member]|]; cbn [default from_option id];
     [| by split_and! |]).
  all: match goal with
       | |- context [completed_turn _ _ _ _ ?s ?c ?m ?r] =>
           pose proof (completed_turn_reply s c m r) as Hreply; cbv zeta in Hreply;
           destruct (completed_turn is_digit lower json_loads groq_client s c m r)
             as [sess' resp]
       end.
  all: cbn [fst snd] in *; destruct Hreply as (Hstatus & Hquick & Hsave & Htext).
  all: split_and!; [done | done | done |].
  all: intros _; eexists _, _; split_and!; [done | done | | done].
  all: unfold contact_at; by rewrite lookup_insert_eq.
Qed.

(** ** Further properties of a chat turn *)

Lemma alerted_report l : alerted l = true ↔ is_Some (log_report l).
Proof. unfold alerted. destruct (log_report l); split; (done || by intros []). Qed.

Lemma allowed_stage_cases stage :
  in_strings stage ALLOWED_ALERT_STAGES = true →
  stage = PStr (lit "SALES_READY") ∨ stage = PStr (lit "URGENT").
Proof.
  destruct stage as [|s|]; simpl; try done.
  intros Hs%bool_decide_eq_true. unfold ALLOWED_ALERT_STAGES in Hs.
  rewrite !elem_of_cons, elem_of_nil in Hs.
  destruct Hs as [-> | [-> | []]]; auto.
Qed.

(** The title of an alert is one of four texts; the stage named by the
    classifier appears in it only when it is [SALES_READY] or [URGENT]. *)
Theorem alert_titles SESSIONS data r SESSIONS' resp l rep :
  chat_endpoint is_digit lower json_loads groq_client SESSIONS data r
    = (SESSIONS', resp, Some l) →
  log_report l = Some rep →
  (log_found l = true ∧ report_title rep = lit "HOT LEAD - NEW CONTACT")
  ∨ (log_found l = false ∧ log_agreement l = true
     ∧ report_title rep = lit "HOT LEAD - SALES READY")
  ∨ (log_found l = false ∧ log_agreement l = false
     ∧ log_stage l = PStr (lit "SALES_READY")
     ∧ report_title rep = lit "HOT LEAD - SALES_READY")
  ∨ (log_found l = false ∧ log_agreement l = false
     ∧ log_stage l = PStr (lit "URGENT")
     ∧ report_title rep = lit "HOT LEAD - URGENT").
Proof.
  intros Hrun Hrep.
  destruct (log_report_spec _ _ _ _ _ _ _ Hrun Hrep) as (_ & Htitle & _).
  pose proof (alerted_spec _ _ _ _ _ _ Hrun) as Ha.
  rewrite (proj2 (alerted_report l)) in Ha by (by rewrite Hrep).
  rewrite Htitle. unfold alert_title.
  destruct (log_found l); [by left|]. right.
  destruct (log_agreement l); [by left|]. right.
  simpl in Ha. rewrite orb_false_r in Ha. symmetry in Ha.
  apply andb_true_iff in Ha as [[Hstage _]%andb_true_iff _].
  destruct (allowed_stage_cases _ Hstage) as [-> | ->]; [by left | by right].
Qed.

(** A turn writes the session of its key and no other, and removes none. *)
Theorem chat_turn_touches_one_session SESSIONS data r SESSIONS' resp log :
  chat_endpoint is_digit lower json_loads groq_client SESSIONS data r
    = (SESSIONS', resp, log) →
  (∀ sid, (∀ l, log = Some l → log_session l ≠ sid) → SESSIONS' !! sid = SESSIONS !! sid)
  ∧ (∀ sid, is_Some (SESSIONS !! sid) → is_Some (SESSIONS' !! sid))
  ∧ (∀ l, log = Some l → is_Some (SESSIONS' !! log_session l)).
Proof.
  destruct data as [|b].
  - intros [= <- _ <-]. split_and!; done.
  - rewrite chat_turn. cbv zeta. intros [= <- _ <-]. simpl. split_and!.
    + intros sid Hne. rewrite lookup_insert_ne; [done|]. exact (Hne _ eq_refl).
    + intros sid Hsome. rewrite lookup_insert. case_decide; [eauto | done].
    + intros l [= <-]. simpl. rewrite lookup_insert_eq. eauto.
Qed.

Lemma alert_sent_default SESSIONS sid :
  alert_sent (default new_session (SESSIONS !! sid)) = alert_sent_of SESSIONS sid.
Proof. unfold alert_sent_of. by destruct (SESSIONS !! sid). Qed.

Lemma chat_endpoint_alert_sent SESSIONS data r SESSIONS' resp log sid :
  chat_endpoint is_digit lower json_loads groq_client SESSIONS data r
    = (SESSIONS', resp, log) →
  alert_sent_of SESSIONS' sid =
    alert_sent_of SESSIONS sid
    || match log with
       | Some l => bool_decide (log_session l = sid) && alerted l
       | None => false
       end.
Proof.
  destruct data as [|b].
  - intros [= <- _ <-]. by rewrite orb_false_r.
  - rewrite chat_turn. cbv zeta. intros [= <- _ <-].
    unfold alerted. simpl. rewrite alert_sent_default.
    destruct (decide (sid_of b = sid)) as [<- | Hne].
    + rewrite bool_decide_eq_true_2 by done.
      unfold alert_sent_of at 1. rewrite lookup_insert_eq. simpl.
      match goal with |- context [if ?x then Some _ else None] => destruct x end;
        by destruct (alert_sent_of SESSIONS (sid_of b)).
    + rewrite bool_decide_eq_false_2 by done.
      unfold alert_sent_of at 1. rewrite lookup_insert_ne by done.
      fold (alert_sent_of SESSIONS sid). by rewrite orb_false_r.
Qed.

(** Over a run, the two flags of a session record what happened and are
    never reset: [alert_sent] holds when it held before or some turn of the
    session alerted, the latch when it held before or some turn alerted
    without a confirmed contact. *)
Theorem flags_record_alerts SESSIONS es sid :
  let res := run is_digit lower json_loads groq_client SESSIONS es in
  alert_sent_of res.1 sid = alert_sent_of SESSIONS sid || some_turn alerted sid res.2
  ∧ latch res.1 sid = latch SESSIONS sid || some_turn high_priority_alert sid res.2.
Proof.
  cbv zeta. revert SESSIONS. induction es as [|e es IH]; intros SESSIONS.
  - simpl. by rewrite !orb_false_r.
  - rewrite run_cons. cbv zeta. simpl.
    destruct e as [data r | data]; [|apply IH].
    rewrite step_chat. cbv zeta. simpl.
    destruct (chat_endpoint _ _ _ _ SESSIONS data r) as [[S1 resp] log] eqn:Hrun. simpl.
    destruct (IH S1) as [IHa IHl]. rewrite IHa, IHl.
    rewrite (chat_endpoint_alert_sent _ _ _ _ _ _ sid Hrun).
    rewrite (chat_endpoint_latch _ _ _ _ _ _ sid Hrun).
    unfold some_turn. destruct log as [l|]; simpl; rewrite ?orb_false_r, ?orb_assoc; done.
Qed.

(** ** The other fields of the profile *)

Lemma analyze_data_fields sess msg d :
  name (profile_of (analyze_data is_digit sess msg d).2) =
    (if truthy (get d "name") then get d "name" else name (profile_of sess))
  ∧ project_type (profile_of (analyze_data is_digit sess msg d).2) =
      (if truthy (get d "project_type") then get d "project_type"
       else project_type (profile_of sess)).
Proof.
  unfold analyze_data.
  destruct (is_real_contact is_digit (get d "contact"));
    [destruct (is_in_text is_digit (get d "contact") msg)|];
    simpl; repeat case_match; done.
Qed.

Lemma seed_contact_fields stored sess :
  name (profile_of (seed_contact is_digit stored sess)) = name (profile_of sess)
  ∧ project_type (profile_of (seed_contact is_digit stored sess))
    = project_type (profile_of sess).
Proof. unfold seed_contact. repeat case_match; done. Qed.

Lemma fields_default SESSIONS sid :
  name (profile_of (default new_session (SESSIONS !! sid))) = name_of SESSIONS sid
  ∧ project_type (profile_of (default new_session (SESSIONS !! sid)))
    = project_type_of SESSIONS sid.
Proof. unfold name_of, project_type_of. by destruct (SESSIONS !! sid). Qed.

Lemma chat_endpoint_fields_kept SESSIONS data r SESSIONS' resp log sid :
  chat_endpoint is_digit lower json_loads groq_client SESSIONS data r
    = (SESSIONS', resp, log) →
  (name_of SESSIONS' sid = name_of SESSIONS sid
   ∨ ∃ d, parsed_reply json_loads groq_client (analysis_reply r) = Some d
          ∧ name_of SESSIONS' sid = get d "name"
          ∧ truthy (get d "name") = true)
  ∧ (project_type_of SESSIONS' sid = project_type_of SESSIONS sid
     ∨ ∃ d, parsed_reply json_loads groq_client (analysis_reply r) = Some d
            ∧ project_type_of SESSIONS' sid = get d "project_type"
            ∧ truthy (get d "project_type") = true).
Proof.
  destruct data as [|b].
  - intros [= <- _ _]. split; by left.
  - rewrite chat_turn. cbv zeta. intros [= <- _ _].
    unfold name_of at 1 3, project_type_of at 1 3. rewrite lookup_insert.
    case_decide as Hsid; [subst sid; simpl | split; by left].
    destruct (seed_contact_fields (stored_contact b)
                (default new_session (SESSIONS !! sid_of b))) as [Hn Hp].
    destruct (fields_default SESSIONS (sid_of b)) as [Hn' Hp'].
    rewrite Hn' in Hn. rewrite Hp' in Hp.
    fold (turn_session is_digit SESSIONS b) in Hn, Hp.
    destruct (analyze_situation_cases (turn_session is_digit SESSIONS b) (msg_of b)
                (analysis_reply r)) as [(d & Hd & ->) | [_ ->]].
    + destruct (analyze_data_fields (turn_session is_digit SESSIONS b) (msg_of b) d)
        as [-> ->].
      rewrite Hn, Hp. split.
      * destruct (truthy (get d "name")) eqn:Ht; [right; eauto | by left].
      * destruct (truthy (get d "project_type")) eqn:Ht; [right; eauto | by left].
    + simpl. rewrite Hn, Hp. split; by left.
Qed.

(** The name and the project type of a session change only to a value the
    classifier extracted on that turn, one that counts as true; so once
    they are set they stay set through every run. *)
Theorem profile_fields_kept :
  (∀ SESSIONS data r SESSIONS' resp log sid,
     chat_endpoint is_digit lower json_loads groq_client SESSIONS data r
       = (SESSIONS', resp, log) →
     (name_of SESSIONS' sid = name_of SESSIONS sid
      ∨ ∃ d, parsed_reply json_loads groq_client (analysis_reply r) = Some d
             ∧ name_of SESSIONS' sid = get d "name"
             ∧ truthy (get d "name") = true)
     ∧ (project_type_of SESSIONS' sid = project_type_of SESSIONS sid
        ∨ ∃ d, parsed_reply json_loads groq_client (analysis_reply r) = Some d
               ∧ project_type_of SESSIONS' sid = get d "project_type"
               ∧ truthy (get d "project_type") = true))
  ∧ (∀ SESSIONS es sid,
       (truthy (name_of SESSIONS sid) = true →
        truthy (name_of (run is_digit lower json_loads groq_client SESSIONS es).1 sid)
        = true)
       ∧ (truthy (project_type_of SESSIONS sid) = true →
          truthy (project_type_of
                    (run is_digit lower json_loads groq_client SESSIONS es).1 sid)
          = true)).
Proof.
  split; [apply chat_endpoint_fields_kept|].
  intros SESSIONS es. revert SESSIONS.
  induction es as [|e es IH]; intros SESSIONS sid; [done|].
  rewrite run_cons. cbv zeta. simpl.
  destruct e as [data r | data]; [|apply IH].
  rewrite step_chat. cbv zeta. simpl.
  destruct (chat_endpoint _ _ _ _ SESSIONS data r) as [[S1 resp] log] eqn:Hrun. simpl.
  destruct (chat_endpoint_fields_kept _ _ _ _ _ _ sid Hrun) as [Hn Hp].
  destruct (IH S1 sid) as [IHn IHp].
  split; intros Hset.
  - apply IHn. destruct Hn as [-> | (d & _ & -> & ?)]; done.
  - apply IHp. destruct Hp as [-> | (d & _ & -> & ?)]; done.
Qed.

(** ** What an alert carries *)

(** Every alert of a chat turn carries a contact that passes the validator:
    the one confirmed on the turn when there is one, the stored one
    otherwise. It is the contact the reply returns as [save_contact]. *)
Theorem alert_carries_contact SESSIONS data r SESSIONS' resp l rep :
  chat_endpoint is_digit lower json_loads groq_client SESSIONS data r
    = (SESSIONS', resp, Some l) →
  log_report l = Some rep →
  is_real_contact is_digit (contact (report_profile rep)) = true
  ∧ save_contact resp = Some (contact (report_profile rep))
  ∧ (log_found l = true →
       classifier_contact json_loads groq_client (analysis_reply r)
       = Some (contact (report_profile rep))).
Proof.
  intros Hrun. destruct (chat_endpoint_logged _ _ _ _ _ _ Hrun) as [b ->].
  revert Hrun. rewrite chat_turn. cbv zeta. intros [= _ <- <-]. simpl.
  destruct (analyze_situation is_digit json_loads groq_client
              (turn_session is_digit SESSIONS b) (msg_of b) (analysis_reply r))
    as [[stage found] sess'] eqn:Ean.
  destruct (analyze_situation_confirmation _ _ _ _ _ _ Ean) as (Hiff & Hyes & _).
  simpl. case_match eqn:Halert; [|discriminate]. intros [= <-]. simpl.
  split_and!; [|done|done].
  destruct found.
  - destruct Hiff as [(e & He & Hreal & _) _]; [done|].
    rewrite Hyes in He by done. by injection He as <-.
  - simpl in Halert. by apply andb_true_iff in Halert as [[_ ?]%andb_true_iff _].
Qed.

(** ** The directive of the reply *)

Lemma strategy_asking found p stage :
  bool_decide (strategy found p stage ∈ ASKING_DIRECTIVES) =
    negb found && negb (truthy (contact p))
    && (is_stage stage "URGENT" || is_stage stage "SALES_READY").
Proof.
  unfold strategy.
  destruct found, (truthy (contact p)), (is_stage stage "URGENT"),
    (is_stage stage "SALES_READY"), (is_stage stage "DISCOVERY"),
    (is_stage stage "CONSULTING"); vm_compute; reflexivity.
Qed.

Lemma generation_session_spec SESSIONS b r :
  profile_of (generation_session is_digit lower json_loads groq_client SESSIONS b r)
  = profile_of (analyze_situation is_digit json_loads groq_client
                  (turn_session is_digit SESSIONS b) (msg_of b) (analysis_reply r)).2
  ∧ history (generation_session is_digit lower json_loads groq_client SESSIONS b r)
    = history_of SESSIONS (sid_of b).
Proof.
  unfold generation_session. rewrite alert_logic_spec. cbv zeta.
  destruct (analyze_situation_rest (turn_session is_digit SESSIONS b) (msg_of b)
              (analysis_reply r)) as (Hh & _ & _).
  destruct (seed_contact_rest (stored_contact b) (default new_session (SESSIONS !! sid_of b)))
    as (Hh' & _ & _).
  fold (turn_session is_digit SESSIONS b) in Hh'.
  rewrite history_default in Hh'. rewrite Hh' in Hh.
  repeat case_match; simpl; by rewrite ?Hh.
Qed.

(** A turn that confirms a contact is answered under the closing directive,
    and a turn that alerts the operator is never answered under a directive
    that asks the visitor for a contact. *)
Theorem alerting_turn_never_asks SESSIONS b r SESSIONS' resp l :
  chat_endpoint is_digit lower json_loads groq_client SESSIONS (Fields b) r
    = (SESSIONS', resp, Some l) →
  (log_found l = true →
     turn_directive is_digit lower json_loads groq_client SESSIONS b r
     = lit "CLOSING: Thank them. Confirm an expert will call.")
  ∧ (alerted l = true →
       turn_directive is_digit lower json_loads groq_client SESSIONS b r
       ∉ ASKING_DIRECTIVES).
Proof.
  intros Hrun. pose proof (alerted_spec _ _ _ _ _ _ Hrun) as Ha.
  revert Hrun Ha. rewrite chat_turn. cbv zeta. intros [= _ _ <-] Ha.
  cbn [log_found log_stage log_agreement log_has_contact log_session] in *.
  unfold turn_directive. destruct (generation_session_spec SESSIONS b r) as [-> _].
  set (a := analyze_situation is_digit json_loads groq_client
              (turn_session is_digit SESSIONS b) (msg_of b) (analysis_reply r)) in *.
  split.
  - intros ->. reflexivity.
  - intros Halert. rewrite Ha in Halert. clear Ha.
    apply (bool_decide_eq_false _). rewrite strategy_asking.
    destruct (a.1.2); [done|]. simpl in Halert.
    apply andb_true_iff in Halert as [[_ Hhas]%andb_true_iff _].
    apply is_real_contact_truthy in Hhas. rewrite Hhas.
    by rewrite andb_false_r.
Qed.

(** ** The transcript of an alert *)

Lemma chat_log_text_app h1 h2 :
  chat_log_text (h1 ++ h2) = chat_log_text h1 ++ chat_log_text h2.
Proof.
  induction h1 as [|m h1 IH]; [done|].
  cbn [app chat_log_text]. by rewrite IH, <- !app_assoc.
Qed.

(** When the report of an alert fits the limit, the text posted ends with
    the line of the message that caused the alert. *)
Theorem alert_ends_with_message SESSIONS data r SESSIONS' resp l rep token chat_id post :
  chat_endpoint is_digit lower json_loads groq_client SESSIONS data r
    = (SESSIONS', resp, Some l) →
  log_report l = Some rep →
  send_telegram token chat_id rep = Some post →
  length (report_text (report_profile rep) (report_history rep) (report_title rep))
    ≤ REPORT_LIMIT →
  ∃ before,
    post_text post = before ++ icon User ++ lit " " ++ log_message l ++ nl.
Proof.
  intros Hrun Hrep Hsend Hfits.
  destruct (log_report_spec _ _ _ _ _ _ _ Hrun Hrep) as (_ & _ & Hhist).
  unfold send_telegram in Hsend.
  destruct token as [[|t0 t]|], chat_id as [[|c0 c]|]; try discriminate.
  injection Hsend as <-. cbn [post_text]. unfold clip.
  rewrite bool_decide_eq_false_2 by lia.
  unfold report_text. rewrite Hhist, chat_log_text_app.
  cbn [chat_log_text role_of content content_text]. rewrite app_nil_r.
  eexists. rewrite !app_assoc. reflexivity.
Qed.

(** ** The report route after a chat turn *)

(** After a chat turn of a session, a report request for the same key finds
    the session: it is answered with success, and the report it sends has
    the title of a user report, the history as the turn left it, and the
    contact the turn returned. *)
Theorem report_after_chat SESSIONS data r SESSIONS' resp l b' :
  chat_endpoint is_digit lower json_loads groq_client SESSIONS data r
    = (SESSIONS', resp, Some l) →
  sid_of b' = log_session l →
  report_answer_of SESSIONS' (Fields b') = ReportSent
  ∧ ∃ rep,
      report_endpoint SESSIONS' (Fields b') = Some rep
      ∧ report_session rep = log_session l
      ∧ report_title rep = REPORTED_TITLE
      ∧ report_history rep =
          last_n HISTORY_LIMIT
            (history_of SESSIONS (log_session l)
             ++ [Turn User (Some (log_message l)); Turn Assistant (log_reply l)])
      ∧ save_contact resp = Some (contact (report_profile rep)).
Proof.
  intros Hrun. destruct (chat_endpoint_logged _ _ _ _ _ _ Hrun) as [b ->].
  revert Hrun. rewrite chat_turn. cbv zeta. intros [= <- <- <-].
  cbn [log_session log_message log_reply save_contact].
  intros Hsid. split.
  { unfold report_answer_of. by rewrite Hsid, lookup_insert_eq. }
  unfold report_endpoint. cbv zeta.
  change (default (lit "guest") (session_id b')) with (sid_of b').
  eexists. rewrite Hsid, lookup_insert_eq. split; [done|].
  cbn [report_session report_title report_history report_profile history profile_of].
  by rewrite history_default.
Qed.

(** ** The shape of the history *)

Lemma paired_arrivals sid logs : paired (arrivals sid logs) = true.
Proof.
  induction logs as [|l logs IH]; [done|]. simpl.
  by destruct (bool_decide (log_session l = sid)).
Qed.

Lemma paired_even h : paired h = true → ∃ k, length h = 2 * k.
Proof.
  induction h as [h IH] using (induction_ltof1 _ (@length turn)). unfold ltof in IH.
  destruct h as [|[[] c1] [|[[] c2] h']]; simpl; try done.
  - by exists 0.
  - intros Hp. destruct (IH h') as [k Hk]; [simpl; lia | done |].
    exists (S k). lia.
Qed.

Lemma paired_drop k h : paired h = true → paired (drop (2 * k) h) = true.
Proof.
  revert h. induction k as [|k IH]; intros h Hp; [done|].
  replace (2 * S k) with (S (S (2 * k))) by lia.
  destruct h as [|[[] c1] [|[[] c2] h']]; simpl in *; try done.
  by apply IH.
Qed.

(** In every store reached from the empty one, the history of a session is
    made of whole exchanges: a message of the user followed by the reply to
    it. The cut to the last 30 entries never separates the two. *)
Theorem history_is_paired es sid :
  paired (history_of (run is_digit lower json_loads groq_client ∅ es).1 sid) = true.
Proof.
  rewrite run_history by (unfold history_of; rewrite lookup_empty; simpl; lia).
  unfold history_of at 1. rewrite lookup_empty. simpl app.
  pose proof (paired_arrivals sid (run is_digit lower json_loads groq_client ∅ es).2) as Hp.
  destruct (paired_even _ Hp) as [k Hk].
  unfold last_n. rewrite Hk.
  replace (2 * k - HISTORY_LIMIT) with (2 * (k - 15)) by (unfold HISTORY_LIMIT; lia).
  by apply paired_drop.
Qed.

(** ** The size of the prompts *)

(** In every store reached from the empty one, the call that generates the
    reply gets at most 32 messages: the system prompt, the stored history
    and the message of the turn. The classifier is shown at most 6 turns. *)
Theorem prompt_is_bounded es b r system_prompt :
  let SESSIONS := (run is_digit lower json_loads groq_client ∅ es).1 in
  let sess := generation_session is_digit lower json_loads groq_client SESSIONS b r in
  generation_messages system_prompt sess (msg_of b) =
    PromptMessage (lit "system") (Some system_prompt)
    :: map (fun t => PromptMessage (role_name (role_of t)) (content t))
         (history_of SESSIONS (sid_of b))
    ++ [PromptMessage (lit "user") (Some (msg_of b))]
  ∧ length (generation_messages system_prompt sess (msg_of b)) ≤ 32
  ∧ length (analysis_context (turn_session is_digit SESSIONS b)) ≤ 6.
Proof.
  cbv zeta. unfold generation_messages.
  destruct (generation_session_spec
              (run is_digit lower json_loads groq_client ∅ es).1 b r) as [_ ->].
  split_and!.
  - done.
  - cbn [app length]. rewrite length_app, length_map.
    rewrite run_history by (unfold history_of; rewrite lookup_empty; simpl; lia).
    pose proof (last_n_length HISTORY_LIMIT
                  (history_of ∅ (sid_of b)
                   ++ arrivals (sid_of b)
                        (run is_digit lower json_loads groq_client ∅ es).2)) as Hlen.
    unfold HISTORY_LIMIT in *. simpl. lia.
  - apply last_n_length.
Qed.

(** ** A turn without the classifier *)

Lemma analyze_situation_unavailable sess msg reply :
  groq_client = false ∨ reply = ApiError
  ∨ (∃ c, reply = Content c ∧ json_loads c = Unparseable) →
  analyze_situation is_digit json_loads groq_client sess msg reply = (GREETING, false, sess).
Proof.
  unfold analyze_situation, analyze_try, call_ai.
  intros [-> | [-> | (c & -> & Hc)]].
  - reflexivity.
  - destruct groq_client; [|reflexivity]. simpl negb. cbv iota.
    change (lit "{}") with (123%N :: lit "}") in loads_empty_object.
    change (lit "{}") with (123%N :: lit "}").
    rewrite loads_empty_object. apply analyze_data_empty.
  - destruct groq_client; [|reflexivity]. simpl.
    destruct c as [|c0 c]; [reflexivity|]. by rewrite Hc.
Qed.

(** When the classifier is not available (no client, a call that raises, a
    reply that does not parse), the turn is still served: its stage is
    [GREETING], no contact is confirmed, and it alerts exactly when the
    message has an agreement word, the stored contact passes the validator
    and the latch is unset; the title is then the sales-ready one. *)
Theorem classifier_outage_turn SESSIONS b r SESSIONS' resp l :
  chat_endpoint is_digit lower json_loads groq_client SESSIONS (Fields b) r
    = (SESSIONS', resp, Some l) →
  groq_client = false ∨ analysis_reply r = ApiError
  ∨ (∃ c, analysis_reply r = Content c ∧ json_loads c = Unparseable) →
  log_stage l = GREETING
  ∧ log_found l = false
  ∧ alerted l =
      log_agreement l && log_has_contact l && negb (latch SESSIONS (log_session l))
  ∧ (∀ rep, log_report l = Some rep → report_title rep = lit "HOT LEAD - SALES READY").
Proof.
  intros Hrun Hfail.
  pose proof (alerted_spec _ _ _ _ _ _ Hrun) as Ha.
  assert (log_stage l = GREETING ∧ log_found l = false) as [Hstage Hfound].
  { revert Hrun. rewrite chat_turn. cbv zeta. intros [= _ _ <-]. simpl.
    by rewrite (analyze_situation_unavailable _ _ _ Hfail). }
  rewrite Hstage, Hfound in Ha. simpl in Ha.
  split_and!; try done.
  intros rep Hrep.
  destruct (log_report_spec _ _ _ _ _ _ _ Hrun Hrep) as (_ & -> & _).
  rewrite Hfound. unfold alert_title.
  rewrite (proj2 (alerted_report l)) in Ha by (by rewrite Hrep).
  destruct (log_agreement l); [done | discriminate].
Qed.

(** ** The stored contact of the caller *)

(** On a turn that confirms no contact, the contact returned to the caller
    is the one the session had, unless the session had none and the caller
    sent one that passes the validator: then it is the caller's. *)
Theorem stored_contact_round_trip SESSIONS b r SESSIONS' resp l :
  chat_endpoint is_digit lower json_loads groq_client SESSIONS (Fields b) r
    = (SESSIONS', resp, Some l) →
  log_found l = false →
  save_contact resp =
    Some (if negb (truthy (contact_of SESSIONS (sid_of b)))
             && is_real_contact is_digit (stored_contact b)
          then stored_contact b
          else contact_of SESSIONS (sid_of b)).
Proof.
  rewrite chat_turn. cbv zeta. intros [= _ <- <-]. simpl.
  destruct (analyze_situation is_digit json_loads groq_client
              (turn_session is_digit SESSIONS b) (msg_of b) (analysis_reply r))
    as [[stage found] sess'] eqn:Ean.
  destruct (analyze_situation_confirmation _ _ _ _ _ _ Ean) as (_ & _ & Hno).
  simpl. intros ->. rewrite Hno by done. unfold turn_session.
  rewrite seed_contact_contact, contact_default. f_equal.
  destruct (is_real_contact is_digit (stored_contact b)) eqn:Hreal.
  - rewrite (is_real_contact_truthy _ Hreal). simpl. by rewrite andb_true_r.
  - by rewrite !andb_false_r.
Qed.

End Properties.

(** * Further properties *)

(** ** Occurrences and replacement *)

Lemma contains_cons w c s :
  contains w (c :: s) = starts_with w (c :: s) || contains w s.
Proof. reflexivity. Qed.

Lemma starts_with_contains w s : starts_with w s = true → contains w s = true.
Proof. intros H. destruct s; simpl; by rewrite H. Qed.

Lemma starts_with_skip w u x t :
  x ∉ w → starts_with w (u ++ x :: t) = starts_with w u.
Proof.
  revert w. induction u as [|b u IH]; intros w Hx; simpl.
  - destruct w as [|a w]; [done|]. simpl.
    apply not_elem_of_cons in Hx as [Hne _].
    by rewrite (proj2 (N.eqb_neq a x)).
  - destruct w as [|a w]; [done|]. simpl.
    apply not_elem_of_cons in Hx as [_ Hx]. by rewrite IH.
Qed.

(** An occurrence of [w] cannot run over a character that [w] lacks. *)
Lemma contains_skip w u x t :
  x ∉ w → contains w (u ++ x :: t) = contains w u || contains w t.
Proof.
  intros Hx. induction u as [|b u IH].
  - change ([] ++ x :: t) with (x :: t).
    pose proof (starts_with_skip w [] x t Hx) as E. cbn [app] in E.
    rewrite contains_cons, E. cbn [contains]. by rewrite orb_false_r.
  - change ((b :: u) ++ x :: t) with (b :: (u ++ x :: t)).
    rewrite contains_cons.
    change (b :: (u ++ x :: t)) with ((b :: u) ++ x :: t).
    rewrite (starts_with_skip w (b :: u) x t Hx), IH, (contains_cons w b u).
    by rewrite orb_assoc.
Qed.

Lemma contains_after w u t :
  w ≠ [] → Forall (fun x => x ∉ w) u → contains w (u ++ t) = contains w t.
Proof.
  intros Hw Hu. induction Hu as [|x u Hx _ IH]; [done|].
  change ((x :: u) ++ t) with ([] ++ x :: (u ++ t)).
  rewrite (contains_skip w [] x (u ++ t) Hx), IH.
  destruct w; [done | reflexivity].
Qed.

Lemma contains_drop w k s : contains w (drop k s) = true → contains w s = true.
Proof.
  revert k. induction s as [|c s IH]; intros k.
  - by rewrite drop_nil.
  - destruct k as [|k]; [done|]. simpl drop. intros H%IH.
    rewrite contains_cons, H. apply orb_true_r.
Qed.

Lemma replace_from_drop old new k s :
  replace_from old new k s = replace old new (drop k s).
Proof.
  revert k. induction s as [|c s IH]; intros k.
  - by rewrite drop_nil.
  - destruct k as [|k]; [done|]. simpl. apply IH.
Qed.

Lemma replace_cons old new c s :
  replace old new (c :: s) =
    if starts_with old (c :: s)
    then new ++ replace old new (drop (length old - 1) s)
    else c :: replace old new s.
Proof.
  unfold replace at 1. cbn [replace_from].
  by rewrite replace_from_drop.
Qed.

(** A text free of the characters of [new] that starts the result of a
    replacement starts the original. *)
Lemma starts_with_replace old new w s :
  new ≠ [] → Forall (fun x => x ∉ w) new →
  starts_with w (replace old new s) = true → starts_with w s = true.
Proof.
  intros Hnew. revert w. induction s as [|c s IH]; intros w Hdis; [done|].
  rewrite replace_cons. destruct (starts_with old (c :: s)).
  - destruct new as [|n new]; [done|]. destruct w as [|a w]; [done|].
    simpl. apply Forall_cons in Hdis as [Hn _].
    apply not_elem_of_cons in Hn as [Hne _].
    by rewrite (proj2 (N.eqb_neq a n)).
  - destruct w as [|a w]; [done|]. simpl.
    intros [-> Hw]%andb_true_iff. simpl.
    apply IH; [|done].
    eapply Forall_impl; [exact Hdis|]. intros x Hx. by apply not_elem_of_cons in Hx as [_ ?].
Qed.

(** Such a text that occurs in the result occurs in the original: a
    replacement creates no occurrence of it. *)
Lemma contains_replace old new w s :
  new ≠ [] → w ≠ [] → Forall (fun x => x ∉ w) new →
  contains w (replace old new s) = true → contains w s = true.
Proof.
  intros Hnew Hw Hdis.
  assert (∀ n s, length s ≤ n →
            contains w (replace old new s) = true → contains w s = true) as H; [|eauto].
  induction n as [|n IH]; intros s' Hlen.
  - destruct s'; [done | simpl in Hlen; lia].
  - destruct s' as [|c s']; [done|].
    rewrite replace_cons. destruct (starts_with old (c :: s')) eqn:E.
    + rewrite (contains_after w new _ Hw Hdis). intros H%IH.
      * apply contains_drop in H. rewrite contains_cons, H. apply orb_true_r.
      * rewrite length_drop. simpl in Hlen. lia.
    + rewrite contains_cons. intros [H | H]%orb_true_iff.
      * apply starts_with_contains, (starts_with_replace old new); try done.
        by rewrite replace_cons, E.
      * apply IH in H; [|simpl in Hlen; lia].
        rewrite contains_cons, H. apply orb_true_r.
Qed.

(** No occurrence of [old] is left, when [new] is not empty and has no
    character of [old]. *)
Lemma replace_removes old new s :
  old ≠ [] → new ≠ [] → Forall (fun x => x ∉ old) new →
  contains old (replace old new s) = false.
Proof.
  intros Hold Hnew Hdis.
  assert (∀ n s, length s ≤ n → contains old (replace old new s) = false) as H; [|eauto].
  induction n as [|n IH]; intros s' Hlen.
  - destruct s'; [|simpl in Hlen; lia]. destruct old; done.
  - destruct s' as [|c s']; [destruct old; done|].
    rewrite replace_cons. destruct (starts_with old (c :: s')) eqn:E.
    + rewrite (contains_after old new _ Hold Hdis). apply IH.
      rewrite length_drop. simpl in Hlen. lia.
    + rewrite contains_cons, IH by (simpl in Hlen; lia).
      rewrite orb_false_r. apply not_true_is_false. intros H.
      assert (starts_with old (c :: s') = true); [|congruence].
      apply (starts_with_replace old new); try done.
      by rewrite replace_cons, E.
Qed.

(** ** Start-up *)

Ltac by_deciding := apply (bool_decide_unpack _); vm_compute; exact I.

Lemma company_profile_words about :
  contains (lit "Agile") (company_profile about) = false
  ∧ contains (lit "Transformation") (company_profile about) = false.
Proof.
  unfold company_profile.
  change (nl ++ ?t) with (10%N :: t).
  assert (contains (lit "Transformation")
            (replace (lit "Transformation") TAHAVVOL (replace (lit "Agile") CHABOK about))
          = false) as Htrans.
  { apply replace_removes; [done | done | by_deciding]. }
  assert (contains (lit "Agile")
            (replace (lit "Transformation") TAHAVVOL (replace (lit "Agile") CHABOK about))
          = false) as Hagile.
  { apply not_true_is_false. intros H.
    apply contains_replace in H; [|done|done|by_deciding].
    rewrite replace_removes in H; [done|done|done|by_deciding]. }
  split; rewrite contains_skip by by_deciding.
  - by rewrite Hagile.
  - by rewrite Htrans.
Qed.

(** After a first start-up the knowledge base contains [Agile] or
    [Transformation] only if the table of [services.csv] does: the text of
    [about.txt] has both replaced, and neither replacement nor the headers
    bring them back. *)
Theorem knowledge_base_words data_store e w :
  groq_client data_store = false →
  w = lit "Agile" ∨ w = lit "Transformation" →
  contains w (knowledge_base (initialize_system data_store e)) =
    match services_csv e with
    | Some (Some table) => contains w table
    | _ => false
    end.
Proof.
  intros Hfresh Hw. unfold initialize_system. rewrite Hfresh.
  change (knowledge_base (mkDataStore ?k _)) with k.
  assert (∀ about, contains w (company_profile about) = false) as Hcp.
  { intros about. destruct (company_profile_words about). by destruct Hw as [-> | ->]. }
  assert (10%N ∉ w) as Hnl by (destruct Hw as [-> | ->]; by_deciding).
  assert (∀ table, contains w (lit "[SERVICES]" ++ nl ++ table) = contains w table) as Hsv.
  { intros table. change (nl ++ table) with (10%N :: table).
    rewrite contains_skip by done. by destruct Hw as [-> | ->]. }
  destruct (about_txt e) as [about|], (services_csv e) as [[table|]|].
  - change (join ?s ([?a] ++ [?b])) with (a ++ s ++ b).
    change (?a ++ (nl ++ nl) ++ ?b) with (a ++ 10%N :: [10%N] ++ b).
    rewrite (contains_skip w (company_profile about)) by done.
    rewrite (contains_after w [10%N]), Hcp, Hsv; [done | | by constructor].
    by destruct Hw as [-> | ->].
  - apply Hcp.
  - apply Hcp.
  - apply Hsv.
  - by destruct Hw as [-> | ->].
  - by destruct Hw as [-> | ->].
Qed.

(** ** The notification *)

(** The text posted has at most 4003 characters and agrees with the report
    on its first 4000: a report within the limit is posted whole, a longer
    one is cut after 4000 characters and marked with three dots. *)
Theorem telegram_text_bounded token chat_id rep post :
  send_telegram token chat_id rep = Some post →
  let full := report_text (report_profile rep) (report_history rep) (report_title rep) in
  length (post_text post) ≤ REPORT_LIMIT + 3
  ∧ take REPORT_LIMIT (post_text post) = take REPORT_LIMIT full
  ∧ (length full ≤ REPORT_LIMIT → post_text post = full)
  ∧ (REPORT_LIMIT < length full → post_text post = take REPORT_LIMIT full ++ lit "...").
Proof.
  unfold send_telegram.
  destruct token as [[|t0 t]|], chat_id as [[|c0 c]|]; try discriminate.
  intros [= <-]. cbv zeta. cbn [post_text].
  set (full := report_text _ _ _). unfold clip.
  generalize REPORT_LIMIT. intros n.
  case_bool_decide as Hlen.
  - split_and!.
    + rewrite length_app, length_take. simpl. lia.
    + rewrite take_app_le by (rewrite length_take; lia).
      rewrite take_take. f_equal. lia.
    + lia.
    + done.
  - split_and!; [lia | done | done | lia].
Qed.

(** ** The directive *)

(** The directive asks for a contact exactly when none was confirmed on the
    turn, the profile has none, and the stage is [URGENT] or
    [SALES_READY]. *)
Theorem strategy_asks found p stage :
  strategy found p stage ∈ ASKING_DIRECTIVES ↔
    found = false ∧ truthy (contact p) = false
    ∧ (is_stage stage "URGENT" = true ∨ is_stage stage "SALES_READY" = true).
Proof.
  rewrite <- (bool_decide_eq_true (strategy found p stage ∈ ASKING_DIRECTIVES)).
  rewrite strategy_asking, !andb_true_iff, orb_true_iff, !negb_true_iff. tauto.
Qed.

(** ** The last rule of the decision *)

(** The suppression of lines 267-268 never changes the decision: the rules
    of lines 260-265 alone give the same alert and the same latch. *)
Theorem suppression_is_redundant stage found agr has sess :
  alert_logic stage found agr has sess = alert_rules stage found agr has sess.
Proof.
  rewrite alert_logic_spec. cbv zeta. unfold alert_rules.
  by destruct found, (in_strings stage ALLOWED_ALERT_STAGES), agr, has,
    (high_priority_alert_sent sess).
Qed.

(** * Concrete runs *)

Ltac evaluate := vm_compute; reflexivity.


(** The number given in the message is confirmed and stored. *)
Lemma contact_confirmation_witness :
  (demo_analyze new_session message_with_phone reply_with_phone).1.2 = true
  ∧ classifier_contact flat_loads true reply_with_phone
    = Some (contact (profile_of
              (demo_analyze new_session message_with_phone reply_with_phone).2))
  ∧ contact (profile_of
      (demo_analyze new_session message_with_phone reply_with_phone).2) = sample_phone.
Proof.
  split; [evaluate|]. split; [|evaluate].
  apply (contact_confirmation ascii_digit flat_loads true new_session
           message_with_phone reply_with_phone).
  evaluate.
Defined.

(** C1 as worded fails: the number is confirmed in a message whose digits
    continue after it, although the digits of the two are not equal. *)
Lemma contact_confirmation_counterexample :
  (demo_analyze new_session message_with_longer_number reply_with_phone).1.2 = true
  ∧ ¬ ∃ e, classifier_contact flat_loads true reply_with_phone = Some e
           ∧ is_real_contact ascii_digit e = true
           ∧ appears_as_specified ascii_digit e message_with_longer_number.
Proof.
  split; [evaluate|].
  intros (e & He & _ & Happ).
  vm_compute in He. injection He as <-.
  vm_compute in Happ. discriminate.
Qed.

(** The call of the classifier raises. *)
Lemma classifier_failure_witness :
  demo_analyze new_session message_with_phone ApiError = (GREETING, false, new_session).
Proof.
  apply (classifier_failure ascii_digit flat_loads true).
  - evaluate.
  - right. left. reflexivity.
Defined.

(** Two turns at stage [SALES_READY] with a stored contact: the first
    alerts, the second does not. *)
Lemma one_high_priority_alert_witness :
  ∃ l1 l2,
    (demo_run ∅ two_sales_ready_turns).2 = [l1; l2]
    ∧ high_priority_alerts visitor (demo_run ∅ two_sales_ready_turns).2 ≤ 1
    ∧ alerted l1 = true ∧ alerted l2 = false
    ∧ high_priority_alerts (log_session l1) [l1; l2] = 1.
Proof.
  destruct (one_high_priority_alert_per_session ascii_digit ascii_lower flat_loads true)
    as (Hbound & _ & _ & Htwo).
  eexists _, _. split; [evaluate|].
  split; [apply Hbound|].
  eapply (Htwo ∅ (says_with_cookie "what is the price")
            (answered (reply_stage "SALES_READY"))
            (says "start now") (answered (reply_stage "SALES_READY")));
    evaluate.
Defined.

(** Two turns that each confirm a contact, the second with the alert flag
    already set: both alert under the new-contact title. *)
Lemma confirmed_contact_alerts_witness :
  ∃ l1 l2,
    (demo_run ∅ two_contacts).2 = [l1; l2]
    ∧ (∃ rep, log_report l1 = Some rep ∧ report_title rep = NEW_CONTACT_TITLE)
    ∧ (∃ rep, log_report l2 = Some rep ∧ report_title rep = NEW_CONTACT_TITLE).
Proof.
  destruct (confirmed_contact_alerts ascii_digit ascii_lower flat_loads true)
    as [_ Hrun].
  eexists _, _. split; [evaluate|].
  split; eapply (Hrun ∅ two_contacts); try (evaluate).
  - apply list_elem_of_In. vm_compute. left. reflexivity.
  - apply list_elem_of_In. vm_compute. right. left. reflexivity.
Defined.

(** A [DISCOVERY] turn of a visitor whose contact is stored. *)
Lemma early_stage_suppression_witness :
  ∃ l, (demo_chat ∅ (says_with_cookie "I need a website")
          (answered (reply_stage "DISCOVERY"))).2 = Some l
       ∧ log_has_contact l = true
       ∧ log_report l = None.
Proof.
  destruct (early_stage_suppression ascii_digit ascii_lower flat_loads true)
    as [Hturn _].
  eexists. split; [evaluate|]. split; [evaluate|].
  eapply (Hturn ∅ (says_with_cookie "I need a website")
            (answered (reply_stage "DISCOVERY")));
    evaluate.
Defined.

(** The first [SALES_READY] turn of such a visitor sets the latch and alerts. *)
Lemma latch_transition_alerts_witness :
  ∃ l rep,
    (demo_chat ∅ (says_with_cookie "what is the price")
       (answered (reply_stage "SALES_READY"))).2 = Some l
    ∧ log_session l = visitor
    ∧ log_report l = Some rep ∧ report_session rep = visitor.
Proof.
  destruct (latch_transition_alerts ascii_digit ascii_lower flat_loads true)
    as [Hturn _].
  eapply (Hturn ∅ (says_with_cookie "what is the price")
            (answered (reply_stage "SALES_READY")));
    evaluate.
Defined.

(** The stored contact seeds the empty profile; a contact confirmed later
    replaces it. *)
Lemma contact_writes_witness :
  contact_of (demo_run ∅ [ChatRequest (says_with_cookie "hello")
                            (answered (reply_stage "GREETING"))]).1 visitor
  = PStr (lit "555-123-4567")
  ∧ contact_of (demo_run ∅ [ChatRequest (says_with_cookie "hello")
                              (answered (reply_stage "GREETING"));
                            ChatRequest (says "call me at 555-1234")
                              (answered reply_with_phone)]).1 visitor
    = sample_phone
  ∧ truthy
      (contact_of
         (demo_run
            (demo_run ∅ [ChatRequest (says_with_cookie "hello")
                           (answered (reply_stage "GREETING"))]).1
            sixteen_turns).1 visitor) = true.
Proof.
  destruct (contact_writes ascii_digit ascii_lower flat_loads true)
    as (_ & _ & Hkept & _).
  split; [evaluate|]. split; [evaluate|].
  apply Hkept. evaluate.
Defined.


(** A request whose message is the number 5551234567 is classified, and the
    contact found in it is stored, before line 258 raises: the reply is the
    generic error without [save_contact]. The same request with the
    message as a string completes and returns the contact. *)
Lemma chat_response_contract_witness :
  (demo_chat_raw ∅ (raw_says number_message) (answered reply_with_phone)).2
  = Response (Some (lit "System Error.")) [] None 200
  ∧ contact_at
      (demo_chat_raw ∅ (raw_says number_message) (answered reply_with_phone)).1
      (KText visitor) = sample_phone
  ∧ (demo_chat_raw ∅ (raw_says null_message) (answered reply_with_phone)).2
    = Response (Some (lit "System Error.")) [] None 200
  ∧ (demo_chat_raw ∅ (raw_says (MText (lit "5551234567"))) (answered reply_with_phone)).2
    = Response (Some (lit "Thank you.")) [] (Some sample_phone) 200.
Proof.
  split_and!.
  - apply (chat_response_contract ascii_digit ascii_lower flat_loads true ∅
             (raw_says number_message) (answered reply_with_phone)).
    reflexivity.
  - evaluate.
  - apply (chat_response_contract ascii_digit ascii_lower flat_loads true ∅
             (raw_says null_message) (answered reply_with_phone)).
    reflexivity.
  - evaluate.
Defined.

(** C6 as worded fails on three requests. The reply to a body that is not
    an object has no [save_contact]. Without the text-generation client, the
    reply to a well-formed request has a [null] text. The reply to a body
    whose message is [null] has no [save_contact]. *)
Lemma chat_response_schema_counterexample :
  ¬ matches_schema (demo_chat ∅ NotAnObject (answered ApiError)).1.2
  ∧ ¬ matches_schema
        (chat_endpoint ascii_digit ascii_lower flat_loads false ∅ (says "hello")
           (answered (reply_stage "GREETING"))).1.2
  ∧ ¬ matches_schema
        (demo_chat_raw ∅ (raw_says null_message) (answered (reply_stage "GREETING"))).2.
Proof.
  split_and!.
  - intros (_ & _ & [Hnull | [s Hs]]); vm_compute in *; discriminate.
  - intros ([t Ht] & _). vm_compute in Ht. discriminate.
  - intros (_ & _ & [Hnull | [s Hs]]); vm_compute in *; discriminate.
Qed.

(** ** Further concrete runs *)

(** The alert of a [SALES_READY] turn without an agreement word names the
    stage. *)
Lemma alert_titles_witness :
  ∃ l rep,
    (demo_chat ∅ (says_with_cookie "what is the price")
       (answered (reply_stage "SALES_READY"))).2 = Some l
    ∧ log_report l = Some rep
    ∧ report_title rep = lit "HOT LEAD - SALES_READY".
Proof.
  eexists _, _. split; [evaluate|]. split; [evaluate|].
  edestruct (alert_titles ascii_digit ascii_lower flat_loads true ∅
               (says_with_cookie "what is the price")
               (answered (reply_stage "SALES_READY")))
    as [[Hf _] | [(_ & Ha & _) | [(_ & _ & _ & Ht) | (_ & _ & Hs & _)]]];
    [evaluate | evaluate | | | exact Ht |].
  - vm_compute in Hf. discriminate.
  - vm_compute in Ha. discriminate.
  - vm_compute in Hs. discriminate.
Defined.

(** A turn of a second visitor leaves the session of the first as it was. *)
Lemma chat_turn_touches_one_session_witness :
  (demo_chat (demo_run ∅ two_contacts).1 (other_visitor_says "hello")
     (answered (reply_stage "GREETING"))).1.1 !! visitor
  = (demo_run ∅ two_contacts).1 !! visitor.
Proof.
  edestruct (chat_turn_touches_one_session ascii_digit ascii_lower flat_loads true
               (demo_run ∅ two_contacts).1 (other_visitor_says "hello")
               (answered (reply_stage "GREETING"))) as [Hother _]; [evaluate|].
  etransitivity; [|apply (Hother visitor)].
  - evaluate.
  - intros l [= <-]. vm_compute. discriminate.
Defined.

(** The alert for the number given in the message carries that number. *)
Lemma alert_carries_contact_witness :
  ∃ l rep,
    (demo_chat ∅ (says "call me at 555-1234") (answered reply_with_phone)).2 = Some l
    ∧ log_report l = Some rep
    ∧ contact (report_profile rep) = sample_phone
    ∧ is_real_contact ascii_digit (contact (report_profile rep)) = true.
Proof.
  eexists _, _. split; [evaluate|]. split; [evaluate|]. split; [evaluate|].
  eapply (alert_carries_contact ascii_digit ascii_lower flat_loads true ∅
            (says "call me at 555-1234") (answered reply_with_phone));
    evaluate.
Defined.

(** A [SALES_READY] turn of a visitor whose contact is stored alerts and is
    answered under the VIP directive. *)
Lemma alerting_turn_never_asks_witness :
  turn_directive ascii_digit ascii_lower flat_loads true ∅
    (body_with_cookie "what is the price") (answered (reply_stage "SALES_READY"))
  = lit "VIP SALES: 'I have your info. Team will call you to finalize.'"
  ∧ turn_directive ascii_digit ascii_lower flat_loads true ∅
      (body_with_cookie "what is the price") (answered (reply_stage "SALES_READY"))
    ∉ ASKING_DIRECTIVES.
Proof.
  split; [evaluate|].
  eapply (alerting_turn_never_asks ascii_digit ascii_lower flat_loads true ∅
            (body_with_cookie "what is the price")
            (answered (reply_stage "SALES_READY")));
    evaluate.
Defined.

(** The text posted for that alert ends with the line of the message. *)
Lemma alert_ends_with_message_witness :
  ∃ l rep post before,
    (demo_chat ∅ (says_with_cookie "what is the price")
       (answered (reply_stage "SALES_READY"))).2 = Some l
    ∧ log_report l = Some rep
    ∧ send_telegram sample_token sample_chat_id rep = Some post
    ∧ post_text post = before ++ icon User ++ lit " " ++ lit "what is the price" ++ nl.
Proof.
  eexists _, _, _.
  edestruct (alert_ends_with_message ascii_digit ascii_lower flat_loads true ∅
               (says_with_cookie "what is the price")
               (answered (reply_stage "SALES_READY")))
    as [before Hpost]; [evaluate | evaluate | | | ].
  - instantiate (3 := sample_chat_id). instantiate (2 := sample_token). evaluate.
  - vm_compute. lia.
  - exists before. split; [evaluate|]. split; [evaluate|]. split; [evaluate|].
    exact Hpost.
Defined.

(** A report request after two turns of the visitor. *)
Lemma report_after_chat_witness :
  report_answer_of (demo_run ∅ two_contacts).1 (Fields report_request) = ReportSent
  ∧ ∃ rep,
      report_endpoint (demo_run ∅ two_contacts).1 (Fields report_request) = Some rep
      ∧ report_title rep = REPORTED_TITLE
      ∧ length (report_history rep) = 4
      ∧ contact (report_profile rep) = sample_mail.
Proof.
  edestruct (report_after_chat ascii_digit ascii_lower flat_loads true
               (demo_chat ∅ (says "call me at 555-1234") (answered reply_with_phone)).1.1
               (says "or write to a@b.com") (answered reply_with_mail))
    with (b' := report_request)
    as (Hanswer & rep & Hrep & _ & Htitle & _ & _); [evaluate | evaluate |].
  split; [exact Hanswer|].
  exists rep. split; [exact Hrep|]. split; [exact Htitle|].
  vm_compute in Hrep. injection Hrep as <-. split; evaluate.
Defined.

(** With the classifier down, an agreement word still alerts a visitor
    whose contact is stored, under the sales-ready title. *)
Lemma classifier_outage_turn_witness :
  ∃ l rep,
    (demo_chat ∅ (says_with_cookie "yes please") (answered ApiError)).2 = Some l
    ∧ log_stage l = GREETING
    ∧ log_report l = Some rep
    ∧ report_title rep = lit "HOT LEAD - SALES READY".
Proof.
  eexists _, _. split; [evaluate|].
  edestruct (classifier_outage_turn ascii_digit ascii_lower flat_loads true eq_refl ∅
               (body_with_cookie "yes please") (answered ApiError))
    as (Hstage & _ & _ & Htitle); [evaluate | right; left; reflexivity |].
  split; [exact Hstage|]. split; [evaluate|]. apply Htitle. evaluate.
Defined.

(** The contact kept by the caller comes back from a first turn. *)
Lemma stored_contact_round_trip_witness :
  save_contact (demo_chat ∅ (says_with_cookie "hello")
                  (answered (reply_stage "GREETING"))).1.2
  = Some (PStr (lit "555-123-4567")).
Proof.
  etransitivity;
    [eapply (stored_contact_round_trip ascii_digit ascii_lower flat_loads true ∅
               (body_with_cookie "hello") (answered (reply_stage "GREETING")));
     evaluate |].
  evaluate.
Defined.

(** The knowledge base made of a text with both words. *)
Lemma knowledge_base_words_witness :
  contains (lit "Agile") (knowledge_base (initialize_system fresh_store sample_startup))
  = false
  ∧ contains CHABOK (knowledge_base (initialize_system fresh_store sample_startup))
    = true.
Proof.
  split; [|evaluate].
  rewrite (knowledge_base_words fresh_store sample_startup (lit "Agile") eq_refl);
    [reflexivity | by left].
Defined.

(** A report of more than 5000 characters is posted with 4003. *)
Lemma telegram_text_bounded_witness :
  ∃ post,
    send_telegram sample_token sample_chat_id long_report = Some post
    ∧ length (post_text post) = 4003
    ∧ length (post_text post) ≤ REPORT_LIMIT + 3.
Proof.
  eexists. split; [evaluate|]. split; [evaluate|].
  eapply (telegram_text_bounded sample_token sample_chat_id long_report). evaluate.
Defined.
